(** * Orrery: the weak-reference observer mechanism of [orrery/observable.py]

    A shallow embedding of [ObserverList] and [Observable] together with
    the part of Python's [weakref] module they rest on
    ([WeakKeyDictionary], [WeakMethod]).

    Objects are named by an identity that is never reused; a heap is the
    set of identities that are still alive.  A weak reference to an
    object yields the object while the object is in the heap and [None]
    afterwards.

    The mechanism is described twice.  The first description is for
    owners that are ordinary instances (weakly referenceable, hashed and
    compared by identity) and for callbacks that leave the observable
    alone; a callback is then described by whether it returns or raises.
    The second description, [Full], has owners of any class, keeps the
    lists as shared objects and lets a callback change the observable,
    and destroy objects, while it is being notified.  Section [Agreement] shows that the two
    coincide where the first applies. *)

From Stdlib Require Import ZArith.
From stdpp Require Import base option list gmap strings.

Open Scope string_scope.
Open Scope list_scope.

(** ** Python values, exceptions and results *)

Definition obj := positive.

Abbreviation Heap := (gset positive).

Inductive PyVal :=
| PyNone
| PyInt (n : Z)
| PyStr (s : string)
| PyRef (o : obj).

Abbreviation Kwargs := (gmap string PyVal).

Inductive PyExn :=
| AttributeError (msg : string)
| TypeError (msg : string)
| KeyError (msg : string)
| RuntimeError (msg : string)
| UserError (code : nat).

Inductive Result (A : Type) :=
| Return (a : A)
| Raise (e : PyExn).
Arguments Return {A} a.
Arguments Raise {A} e.

(** The callables [add_observer] can be handed.  A bound method has both
    [__self__] and [__func__]; a built-in method has [__self__] only; a
    plain function or lambda has neither. *)
Inductive Callable :=
| BoundMethod (self func : obj)
| BuiltinMethod (self : obj)
| PlainFunction (f : obj).

Global Instance Callable_eq_dec : EqDecision Callable.
Proof. solve_decision. Defined.

(** [callback.__self__] *)
Definition getattr_self (c : Callable) : Result obj :=
  match c with
  | BoundMethod self _ => Return self
  | BuiltinMethod self => Return self
  | PlainFunction _ =>
      Raise (AttributeError "'function' object has no attribute '__self__'")
  end.

(** One invocation of a callable: who was called, with which keywords. *)
Record Call := { callee : Callable; call_kwargs : gmap string PyVal }.

(** What calling a bound method does, as seen by the caller. *)
Abbreviation Behaviour := (Callable → gmap string PyVal → Result unit).

(** ** weakref.WeakMethod *)

Record WeakMethod := { wm_obj : obj; wm_func : obj }.

(** [weakref.WeakMethod(meth)]: reads [meth.__self__] and
    [meth.__func__], and turns a missing attribute into a [TypeError]. *)
Definition WeakMethod_new (meth : Callable) : Result WeakMethod :=
  match meth with
  | BoundMethod self func => Return {| wm_obj := self; wm_func := func |}
  | _ => Raise (TypeError "argument should be a bound method")
  end.

(** Calling the weak method: the bound method again when both the object
    and the function are alive, [None] otherwise. *)
Definition WeakMethod_call (h : Heap) (w : WeakMethod) : option Callable :=
  if bool_decide (wm_obj w ∈ h) && bool_decide (wm_func w ∈ h)
  then Some (BoundMethod (wm_obj w) (wm_func w))
  else None.

(** ** Keyword arguments *)

(** A call that unpacks two dictionaries as keywords, first [a] then
    [b]: they are merged into one; a key found in both is a [TypeError],
    raised before the callee is entered. *)
Definition merge_kwargs (a b : gmap string PyVal) : Result (gmap string PyVal) :=
  if bool_decide (a ##ₘ b)
  then Return (a ∪ b)
  else Raise (TypeError "got multiple values for keyword argument").

(** Calling the value of an expression that may be [None]. *)
Definition py_call (behaviour : Behaviour) (f : option Callable)
    (kw : gmap string PyVal) : Result unit :=
  match f with
  | None => Raise (TypeError "'NoneType' object is not callable")
  | Some c => behaviour c kw
  end.

(** ** weakref.WeakKeyDictionary

  The dictionary's [data] maps weak references to values and keeps
  insertion order.  A stored weak reference equals the reference made
  from a probe key only while its referent is alive and is the probe;
  an entry whose key died stays in [data] until the reference's
  callback removes it ([wkd_remove]), and is invisible meanwhile. *)
Section WeakKeyDictionary.
Context {V : Type}.

Definition ref_matches (h : Heap) (stored probe : obj) : bool :=
  bool_decide (stored ∈ h) && bool_decide (stored = probe).

(** [key in d] *)
Definition wkd_contains (h : Heap) (d : list (obj * V)) (key : obj) : bool :=
  existsb (λ e, ref_matches h e.1 key) d.

(** [d[key] = value]: an equal key keeps its place and gets the new
    value, a new key goes to the end. *)
Fixpoint wkd_setitem (h : Heap) (d : list (obj * V)) (key : obj) (value : V)
    : list (obj * V) :=
  match d with
  | [] => [(key, value)]
  | e :: d' =>
      if ref_matches h e.1 key then (e.1, value) :: d'
      else e :: wkd_setitem h d' key value
  end.

(** [del d[key]] *)
Fixpoint wkd_delitem (h : Heap) (d : list (obj * V)) (key : obj)
    : Result (list (obj * V)) :=
  match d with
  | [] => Raise (KeyError "key")
  | e :: d' =>
      if ref_matches h e.1 key then Return d'
      else match wkd_delitem h d' key with
           | Return d'' => Return (e :: d'')
           | Raise x => Raise x
           end
  end.

(** [d.values()]: the values whose key is still alive, in order. *)
Definition wkd_values (h : Heap) (d : list (obj * V)) : list V :=
  (filter (λ e, e.1 ∈ h) d).*2.

(** The callback of a stored weak reference, run when its referent
    [o] is destroyed: the entry is dropped. *)
Definition wkd_remove (o : obj) (d : list (obj * V)) : list (obj * V) :=
  filter (λ e, e.1 ≠ o) d.
End WeakKeyDictionary.

(** ** class ObserverList *)
Module ObserverList.

Record CallbackArgs := { callback : WeakMethod; kwargs : gmap string PyVal }.

Record t := { _observers : list (obj * CallbackArgs) }.

(** [__init__] *)
Definition __init__ : t := {| _observers := [] |}.

Definition add_observer (h : Heap) (self : t) (cb : Callable)
    (kw : gmap string PyVal) : t * Result obj :=
  match getattr_self cb with
  | Raise e => (self, Raise e)
  | Return callback_id =>
      match WeakMethod_new cb with
      | Raise e => (self, Raise e)
      | Return weak_callback =>
          ({| _observers :=
                wkd_setitem h (_observers self) callback_id
                  {| callback := weak_callback; kwargs := kw |} |},
           Return callback_id)
      end
  end.

Definition remove_observer (h : Heap) (self : t) (callback_id : obj)
    : t * Result unit :=
  if negb (wkd_contains h (_observers self) callback_id)
  then (self, Raise (RuntimeError "Unknown callback ID"))
  else match wkd_delitem h (_observers self) callback_id with
       | Return d => ({| _observers := d |}, Return ())
       | Raise e => (self, Raise e)
       end.

Section Notify.
Variable behaviour : Behaviour.
Variable h : Heap.

(** The body of the [for] loop, over the values still to visit.  The
    result is the list of calls made, in order, and how the loop
    ended. *)
Fixpoint notify_loop (vs : list CallbackArgs) (event_args : gmap string PyVal)
    : list Call * Result unit :=
  match vs with
  | [] => ([], Return ())
  | callback_args :: rest =>
      let f := WeakMethod_call h (callback callback_args) in
      match merge_kwargs event_args (kwargs callback_args) with
      | Raise e => ([], Raise e)
      | Return kw =>
          match f with
          | None => ([], py_call behaviour None kw)
          | Some c =>
              let call := {| callee := c; call_kwargs := kw |} in
              match py_call behaviour (Some c) kw with
              | Raise e => ([call], Raise e)
              | Return _ =>
                  let '(calls, r) := notify_loop rest event_args in
                  (call :: calls, r)
              end
          end
      end
  end.

Definition notify (self : t) (event_args : gmap string PyVal)
    : t * (list Call * Result unit) :=
  (self, notify_loop (wkd_values h (_observers self)) event_args).
End Notify.

End ObserverList.

(** ** class Event(str) *)
Abbreviation Event := string.

(** ** class Observable *)
Module Observable.

Record t := { _observer_lists : gmap string ObserverList.t }.

(** [__init__] *)
Definition __init__ : t := {| _observer_lists := ∅ |}.

Definition _get_observer_list (self : t) (event : Event)
    : t * ObserverList.t :=
  match _observer_lists self !! event with
  | None =>
      ({| _observer_lists := <[event := ObserverList.__init__]> (_observer_lists self) |},
       ObserverList.__init__)
  | Some ol => (self, ol)
  end.

(** The list handed out by [_get_observer_list] is the object stored in
    the dictionary: what a method does to it is seen there. *)
Definition store (self : t) (event : Event) (ol : ObserverList.t) : t :=
  {| _observer_lists := <[event := ol]> (_observer_lists self) |}.

Definition add_observer (h : Heap) (self : t) (event : Event)
    (cb : Callable) (kw : gmap string PyVal) : t * Result obj :=
  let '(self1, ol) := _get_observer_list self event in
  let '(ol', r) := ObserverList.add_observer h ol cb kw in
  (store self1 event ol', r).

Definition remove_observer (h : Heap) (self : t) (event : Event)
    (callback_id : obj) : t * Result unit :=
  let '(self1, ol) := _get_observer_list self event in
  let '(ol', r) := ObserverList.remove_observer h ol callback_id in
  (store self1 event ol', r).

Definition notify (behaviour : Behaviour) (h : Heap) (self : t)
    (event : Event) (event_args : gmap string PyVal)
    : t * (list Call * Result unit) :=
  let '(self1, ol) := _get_observer_list self event in
  let '(ol', out) := ObserverList.notify behaviour h ol event_args in
  (store self1 event ol', out).

End Observable.

(** ** Auxiliary notions used in the statements *)

(** A dictionary holds each key once. *)
Definition distinct_keys (ol : ObserverList.t) : Prop :=
  NoDup (ObserverList._observers ol).*1.

(** Each registration is filed under the object its weak method is
    bound to: [add_observer] takes both from [callback.__self__]. *)
Definition keyed_by_owner (ol : ObserverList.t) : Prop :=
  Forall (λ e, wm_obj (ObserverList.callback e.2) = e.1) (ObserverList._observers ol).

Definition well_formed (s : Observable.t) : Prop :=
  map_Forall (λ _ ol, distinct_keys ol ∧ keyed_by_owner ol)
    (Observable._observer_lists s).

(** The registrations an observable holds for an event, none for an
    event it has not seen. *)
Definition observers_of (s : Observable.t) (event : Event)
    : list (obj * ObserverList.CallbackArgs) :=
  match Observable._observer_lists s !! event with
  | Some ol => ObserverList._observers ol
  | None => []
  end.

(** The identifier has a registration whose owner is alive. *)
Definition live_registration (h : Heap) (ol : ObserverList.t) (id : obj) : Prop :=
  id ∈ h ∧ ∃ ca, (id, ca) ∈ ObserverList._observers ol.

(** The registration made from a bound method. *)
Definition registration (owner func : obj) (kw : gmap string PyVal)
    : ObserverList.CallbackArgs :=
  {| ObserverList.callback := {| wm_obj := owner; wm_func := func |};
     ObserverList.kwargs := kw |}.


(** The object a call is delivered to. *)
Definition receiver (c : Call) : option obj :=
  match callee c with
  | BoundMethod self _ => Some self
  | BuiltinMethod self => Some self
  | PlainFunction _ => None
  end.

(** ** Sequences of method calls *)

(** A call of one of the three public methods of [Observable], with the
    heap as it is during the call. *)
Inductive MethodCall :=
| CallAddObserver (h : Heap) (event : Event) (cb : Callable)
    (kw : gmap string PyVal)
| CallRemoveObserver (h : Heap) (event : Event) (callback_id : obj)
| CallNotify (behaviour : Behaviour) (h : Heap) (event : Event)
    (event_args : gmap string PyVal).

(** The observable after the call, whether the call returned or raised:
    what a method did before raising stays done. *)
Definition perform (s : Observable.t) (m : MethodCall) : Observable.t :=
  match m with
  | CallAddObserver h event cb kw => (Observable.add_observer h s event cb kw).1
  | CallRemoveObserver h event id => (Observable.remove_observer h s event id).1
  | CallNotify behaviour h event args =>
      (Observable.notify behaviour h s event args).1
  end.

(** A bound method keeps its owner alive, so the owner is in the heap
    while the method is an argument of [add_observer]. *)
Definition owner_alive (m : MethodCall) : Prop :=
  match m with
  | CallAddObserver h _ (BoundMethod o _) _ => o ∈ h
  | _ => True
  end.

(** The call a registration stands for when the event carries [args]. *)
Definition delivery (args : gmap string PyVal) (ca : ObserverList.CallbackArgs)
    : Call :=
  {| callee := BoundMethod (wm_obj (ObserverList.callback ca))
                 (wm_func (ObserverList.callback ca));
     call_kwargs := args ∪ ObserverList.kwargs ca |}.



(** ** Concrete objects for worked runs *)
Module Scenario.

(** Two observers, each with the function object of one of its methods. *)
Definition handler : obj := 1%positive.
Definition on_tick : obj := 2%positive.
Definition logger : obj := 3%positive.
Definition on_log : obj := 4%positive.

Definition everything : Heap := {[ handler; on_tick; logger; on_log ]}.

(** Every callback returns. *)
Definition quiet : Behaviour := λ _ _, Return ().

(** The callback [c] raises, every other one returns. *)
Definition failing (c : Callable) (e : PyExn) : Behaviour :=
  λ c' _, if decide (c' = c) then Raise e else Return ().

(** An observable on which [logger.on_log] observes "tick". *)
Definition logged : Observable.t :=
  (Observable.add_observer everything Observable.__init__ "tick"
     (BoundMethod logger on_log) ∅).1.

(** An observable on which [handler.on_tick] observes "tick". *)
Definition ticking : Observable.t :=
  (Observable.add_observer everything Observable.__init__ "tick"
     (BoundMethod handler on_tick) {[ "phase" := PyInt 1 ]}).1.

End Scenario.

(** * The mechanism in full

    The definitions above describe the mechanism for owners that are
    ordinary instances and for callbacks that leave the observable
    alone.  The ones below drop both restrictions and keep the lists as
    the shared objects they are:

    - the class of an object decides whether it can be weakly
      referenced, whether it can be hashed, and by which value it is
      hashed and compared;
    - an [ObserverList] is an object in a store, [_observer_lists] holds
      its address, and a method changes the object in place;
    - a callback is given the world (which objects are alive, and the
      state of the observable) and may change it, so that [notify]
      walks a dictionary that can change under its feet, with keys that
      can die on the way.

    [add_observer] and [remove_observer] run no callback: they take the
    heap as it is when they are called. *)
Module Full.

(** ** Objects *)

(** [value_of o] is the value [o] is hashed and compared by: [a == b]
    exactly when the two values agree.  It is [None] for an object that
    cannot be hashed.  An ordinary instance has a value of its own. *)
Record Traits := {
  value_of : obj → option positive;
  weakly_referenceable : obj → bool
}.

Definition ordinary : Traits :=
  {| value_of := λ o, Some o; weakly_referenceable := λ _, true |}.

(** [weakref.WeakMethod(meth)]: as before, and the two weak references
    it makes want objects that can be weakly referenced. *)
Definition WeakMethod_new (T : Traits) (meth : Callable) : Result WeakMethod :=
  match meth with
  | BoundMethod self func =>
      if weakly_referenceable T self && weakly_referenceable T func
      then Return {| wm_obj := self; wm_func := func |}
      else Raise (TypeError "cannot create weak reference")
  | _ => Raise (TypeError "argument should be a bound method")
  end.

(** ** weakref.WeakKeyDictionary over a dict of weak references *)
Section Dict.
Context {V : Type}.
Variable T : Traits.
Variable h : Heap.

(** A stored weak reference equals the one made from a probe when its
    referent is alive and equal to the probe. *)
Definition ref_eq (stored probe : obj) : bool :=
  bool_decide (stored ∈ h) && bool_decide (value_of T stored = value_of T probe).

(** What has to work before the dict can look a key up: the weak
    reference to it, then its hash. *)
Definition probe (key : obj) : Result unit :=
  if weakly_referenceable T key
  then match value_of T key with
       | Some _ => Return ()
       | None => Raise (TypeError "unhashable type")
       end
  else Raise (TypeError "cannot create weak reference").

Fixpoint replace_or_append (d : list (obj * V)) (key : obj) (value : V)
    : list (obj * V) :=
  match d with
  | [] => [(key, value)]
  | e :: d' =>
      if ref_eq e.1 key then (e.1, value) :: d'
      else e :: replace_or_append d' key value
  end.

Fixpoint remove_first (d : list (obj * V)) (key : obj) : option (list (obj * V)) :=
  match d with
  | [] => None
  | e :: d' =>
      if ref_eq e.1 key then Some d'
      else cons e <$> remove_first d' key
  end.

(** [d[key] = value] *)
Definition setitem (d : list (obj * V)) (key : obj) (value : V)
    : Result (list (obj * V)) :=
  match probe key with
  | Raise e => Raise e
  | Return _ => Return (replace_or_append d key value)
  end.

(** [key in d]: a key that cannot be weakly referenced is not in the
    dictionary; one that cannot be hashed is an error. *)
Definition contains (d : list (obj * V)) (key : obj) : Result bool :=
  if weakly_referenceable T key
  then match value_of T key with
       | Some _ => Return (existsb (λ e, ref_eq e.1 key) d)
       | None => Raise (TypeError "unhashable type")
       end
  else Return false.

(** [del d[key]] *)
Definition delitem (d : list (obj * V)) (key : obj) : Result (list (obj * V)) :=
  match probe key with
  | Raise e => Raise e
  | Return _ =>
      match remove_first d key with
      | Some d' => Return d'
      | None => Raise (KeyError "key")
      end
  end.
End Dict.

(** ** The state *)

(** The [ObserverList] objects there are, by address, and the
    dictionary of the observable, from events to addresses. *)
Record State := {
  objects : gmap positive ObserverList.t;
  _observer_lists : gmap string positive
}.

(** What a callback finds and may change: which objects are alive, and
    the state of the observable. *)
Record World := {
  alive : Heap;
  state : State
}.

(** What a call of a bound method does: it may change the world, and
    returns or raises. *)
Abbreviation Behaviour := (Callable → gmap string PyVal → World → World * Result unit).

(** How a walk over a dictionary ends.  When callbacks replaced keys of
    the dictionary without changing its size, what the interpreter does
    depends on the layout of its hash table; that case is set apart. *)
Inductive Outcome :=
| Done (r : Result unit)
| KeysReplaced.

(** The object at an address, and the assignment to its attribute. *)
Definition observers_at (st : State) (self : positive) : list (obj * ObserverList.CallbackArgs) :=
  match objects st !! self with
  | Some ol => ObserverList._observers ol
  | None => []
  end.

Definition set_observers (st : State) (self : positive)
    (d : list (obj * ObserverList.CallbackArgs)) : State :=
  {| objects := <[self := {| ObserverList._observers := d |}]> (objects st);
     _observer_lists := _observer_lists st |}.

(** ** class ObserverList *)
Module ObserverList.

(** [ObserverList()]: a new object with an empty dictionary. *)
Definition new (st : State) : State * positive :=
  let self := fresh (dom (objects st)) in
  (set_observers st self [], self).

Definition add_observer (T : Traits) (h : Heap) (st : State) (self : positive)
    (cb : Callable) (kw : gmap string PyVal) : State * Result obj :=
  match getattr_self cb with
  | Raise e => (st, Raise e)
  | Return callback_id =>
      match WeakMethod_new T cb with
      | Raise e => (st, Raise e)
      | Return weak_callback =>
          match setitem T h (observers_at st self) callback_id
                  {| ObserverList.callback := weak_callback;
                     ObserverList.kwargs := kw |} with
          | Raise e => (st, Raise e)
          | Return d => (set_observers st self d, Return callback_id)
          end
      end
  end.

Definition remove_observer (T : Traits) (h : Heap) (st : State) (self : positive)
    (callback_id : obj) : State * Result unit :=
  match contains T h (observers_at st self) callback_id with
  | Raise e => (st, Raise e)
  | Return false => (st, Raise (RuntimeError "Unknown callback ID"))
  | Return true =>
      match delitem T h (observers_at st self) callback_id with
      | Raise e => (st, Raise e)
      | Return d => (set_observers st self d, Return ())
      end
  end.

Section Notify.
Variable behaviour : Behaviour.
Variable self : positive.
Variable event_args : gmap string PyVal.

(** One turn of the [for] loop for the value [callback_args]: the calls
    made, the world after them, and whether the loop goes on. *)
Definition visit (w : World) (callback_args : ObserverList.CallbackArgs)
    : World * (list Call * Result unit) :=
  let f := WeakMethod_call (alive w) (ObserverList.callback callback_args) in
  match merge_kwargs event_args (ObserverList.kwargs callback_args) with
  | Raise e => (w, ([], Raise e))
  | Return kw =>
      match f with
      | None => (w, ([], Raise (TypeError "'NoneType' object is not callable")))
      | Some c =>
          let '(w', r) := behaviour c kw w in
          (w', ([ {| callee := c; call_kwargs := kw |} ], r))
      end
  end.

(** The iterator of [self._observers.values()].  [keys] are the keys the
    dictionary had when the iterator was made, [pos] is the next
    position and [rest] the keys from there on.  Each step first looks
    at the dictionary as it is now, and passes over an entry whose key
    is dead by now. *)
Fixpoint iterate (keys rest : list obj) (pos : nat) (w : World)
    : World * (list Call * Outcome) :=
  let d := observers_at (state w) self in
  if negb (bool_decide (length d = length keys))
  then (w, ([], Done (Raise (RuntimeError "dictionary changed size during iteration"))))
  else if negb (bool_decide (d.*1 = keys))
  then (w, ([], KeysReplaced))
  else
    match rest with
    | [] => (w, ([], Done (Return ())))
    | k :: rest' =>
        match d !! pos with
        | None => (w, ([], Done (Return ())))
        | Some e =>
            if bool_decide (e.1 ∈ alive w)
            then
              match visit w e.2 with
              | (w', (calls, Raise x)) => (w', (calls, Done (Raise x)))
              | (w', (calls, Return _)) =>
                  let '(w'', (calls', o)) := iterate keys rest' (S pos) w' in
                  (w'', (calls ++ calls', o))
              end
            else iterate keys rest' (S pos) w
        end
    end.

Definition notify (w : World) : World * (list Call * Outcome) :=
  let keys := (observers_at (state w) self).*1 in
  iterate keys keys 0 w.
End Notify.

End ObserverList.

(** ** class Observable *)
Module Observable.

(** [__init__] *)
Definition __init__ : State := {| objects := ∅; _observer_lists := ∅ |}.

Definition _get_observer_list (st : State) (event : Event) : State * positive :=
  match _observer_lists st !! event with
  | Some self => (st, self)
  | None =>
      let '(st1, self) := ObserverList.new st in
      ({| objects := objects st1;
          _observer_lists := <[event := self]> (_observer_lists st1) |},
       self)
  end.

Definition add_observer (T : Traits) (h : Heap) (st : State) (event : Event)
    (cb : Callable) (kw : gmap string PyVal) : State * Result obj :=
  let '(st1, self) := _get_observer_list st event in
  ObserverList.add_observer T h st1 self cb kw.

Definition remove_observer (T : Traits) (h : Heap) (st : State) (event : Event)
    (callback_id : obj) : State * Result unit :=
  let '(st1, self) := _get_observer_list st event in
  ObserverList.remove_observer T h st1 self callback_id.

Definition notify (behaviour : Behaviour) (w : World)
    (event : Event) (event_args : gmap string PyVal)
    : World * (list Call * Outcome) :=
  let '(st1, self) := _get_observer_list (state w) event in
  ObserverList.notify behaviour self event_args
    {| alive := alive w; state := st1 |}.

End Observable.

(** The registrations of an event, none for an event not seen. *)
Definition registrations (st : State) (event : Event)
    : list (obj * ObserverList.CallbackArgs) :=
  match _observer_lists st !! event with
  | Some self => observers_at st self
  | None => []
  end.

End Full.

(** ** Auxiliary notions for the mechanism in full *)

(** A registration filed under a live key equal to [key]. *)
Definition filed_under (T : Full.Traits) (h : Heap)
    (d : list (obj * ObserverList.CallbackArgs)) (key : obj) : Prop :=
  ∃ e, e ∈ d ∧ e.1 ∈ h ∧ Full.value_of T e.1 = Full.value_of T key.

(** The entries a walk meets before the one [key] is filed under. *)
Fixpoint entries_ahead {V} (T : Full.Traits) (h : Heap) (key : obj)
    (d : list (obj * V)) : list (obj * V) :=
  match d with
  | [] => []
  | e :: d' =>
      if Full.ref_eq T h e.1 key then [] else e :: entries_ahead T h key d'
  end.

(** Live keys have pairwise different values, and the weak method of a
    registration is bound to an object equal to the key it is filed
    under. *)
Definition tidy (T : Full.Traits) (h : Heap)
    (d : list (obj * ObserverList.CallbackArgs)) : Prop :=
  NoDup ((λ e, Full.value_of T e.1) <$> filter (λ e, e.1 ∈ h) d)
  ∧ Forall (λ e, Full.value_of T (wm_obj (ObserverList.callback e.2))
                 = Full.value_of T e.1) d.

(** The object can be weakly referenced but not hashed. *)
Definition unhashable (T : Full.Traits) (id : obj) : Prop :=
  Full.weakly_referenceable T id = true ∧ Full.value_of T id = None.



(** The callbacks leave the set of live objects and the list at [self]
    as they are. *)
Definition quiet_at (behaviour : Full.Behaviour) (self : positive) : Prop :=
  ∀ c kw w,
    Full.alive (behaviour c kw w).1 = Full.alive w
    ∧ Full.objects (Full.state (behaviour c kw w).1) !! self
      = Full.objects (Full.state w) !! self.

(** The walk over the entries of a dictionary that does not change
    meanwhile. *)
Fixpoint walk (behaviour : Full.Behaviour)
    (args : gmap string PyVal) (es : list (obj * ObserverList.CallbackArgs))
    (w : Full.World) : Full.World * (list Call * Result unit) :=
  match es with
  | [] => (w, ([], Return ()))
  | e :: es' =>
      if bool_decide (e.1 ∈ Full.alive w)
      then
        match Full.ObserverList.visit behaviour args w e.2 with
        | (w', (calls, Raise x)) => (w', (calls, Raise x))
        | (w', (calls, Return _)) =>
            let '(w'', (calls', r)) := walk behaviour args es' w' in
            (w'', (calls ++ calls', r))
        end
      else walk behaviour args es' w
  end.

(** ** Concrete objects for worked runs of the mechanism in full *)
Module FullScenario.

(** [point] is an instance of a class that defines [__eq__] and no
    [__hash__]: it cannot be hashed.  [slotted] is an instance of a class
    with [__slots__] and no [__weakref__].  [twin_a] and [twin_b] are two
    instances that compare equal.  The other objects are ordinary. *)
Definition point : obj := 9%positive.
Definition slotted : obj := 10%positive.
Definition twin_a : obj := 11%positive.
Definition twin_b : obj := 12%positive.
Definition on_move : obj := 13%positive.

Definition traits : Full.Traits :=
  {| Full.value_of := λ o,
       if decide (o = point) then None
       else if decide (o = twin_b) then Some twin_a
       else Some o;
     Full.weakly_referenceable := λ o, negb (bool_decide (o = slotted)) |}.

Definition everything : Heap :=
  Scenario.everything ∪ {[ point; slotted; twin_a; twin_b; on_move ]}.

(** Callbacks that do nothing and return. *)
Definition quiet : Full.Behaviour := λ _ _ w, (w, Return ()).

(** The callback [c] removes the registration of [id] from the list at
    [self] and returns; the other callbacks do nothing. *)
Definition unregistering (c : Callable) (self : positive) (id : obj)
    : Full.Behaviour :=
  λ c' _ w,
    if decide (c' = c)
    then ({| Full.alive := Full.alive w;
             Full.state :=
               (Full.ObserverList.remove_observer traits (Full.alive w)
                  (Full.state w) self id).1 |},
          Return ())
    else (w, Return ()).

(** The callback [c] drops the last reference to [o], which is
    destroyed, and returns; the other callbacks do nothing. *)
Definition destroying (c : Callable) (o : obj) : Full.Behaviour :=
  λ c' _ w,
    if decide (c' = c)
    then ({| Full.alive := Full.alive w ∖ {[ o ]}; Full.state := Full.state w |},
          Return ())
    else (w, Return ()).

(** The callback [c] raises, the others do nothing and return. *)
Definition failing (c : Callable) (e : PyExn) : Full.Behaviour :=
  λ c' _ w, if decide (c' = c) then (w, Raise e) else (w, Return ()).

(** An observable on which [logger.on_log] observes "tick". *)
Definition logged : Full.State :=
  (Full.Observable.add_observer traits everything Full.Observable.__init__
     "tick" (BoundMethod Scenario.logger Scenario.on_log) ∅).1.

(** An observable on which [handler.on_tick] observes "tick". *)
Definition ticking : Full.State :=
  (Full.Observable.add_observer traits everything Full.Observable.__init__
     "tick" (BoundMethod Scenario.handler Scenario.on_tick)
     {[ "phase" := PyInt 1 ]}).1.

End FullScenario.

(** * Properties *)

(** ** The weak-key dictionary *)
Section WeakKeyDictionaryFacts.
Context {V : Type}.
Implicit Types (d : list (obj * V)) (h : Heap) (k : obj) (v : V).

Lemma ref_matches_spec h k k' :
  ref_matches h k k' = true ↔ k ∈ h ∧ k = k'.
Proof.
  unfold ref_matches. rewrite andb_true_iff, !bool_decide_eq_true. done.
Qed.

Lemma ref_matches_alive h k k' :
  k' ∈ h → ref_matches h k k' = bool_decide (k = k').
Proof.
  intros Hk. unfold ref_matches.
  destruct (decide (k = k')) as [->|Hne].
  - by rewrite !bool_decide_eq_true_2.
  - by rewrite (bool_decide_eq_false_2 (k = k')), andb_false_r.
Qed.

Lemma wkd_contains_spec h d k :
  wkd_contains h d k = true ↔ k ∈ h ∧ k ∈ d.*1.
Proof.
  unfold wkd_contains. induction d as [|[k0 v0] d IH]; simpl.
  - split; [done|]. intros [_ H]. by apply elem_of_nil in H.
  - rewrite orb_true_iff, IH, ref_matches_spec, elem_of_cons.
    split.
    + intros [[Hk ->]|[Hk Hin]]; auto.
    + intros [Hk [->|Hin]]; auto.
Qed.

Lemma wkd_setitem_fresh h d k v :
  k ∉ d.*1 → wkd_setitem h d k v = d ++ [(k, v)].
Proof.
  induction d as [|[k0 v0] d IH]; simpl; [done|].
  rewrite not_elem_of_cons. intros [Hne Hnin].
  destruct (ref_matches h k0 k) eqn:E.
  - apply ref_matches_spec in E as [_ ->]. done.
  - by rewrite IH.
Qed.

Lemma wkd_setitem_present h pre post k v0 v :
  k ∈ h → k ∉ pre.*1 →
  wkd_setitem h (pre ++ (k, v0) :: post) k v = pre ++ (k, v) :: post.
Proof.
  intros Hk. induction pre as [|[k0 w0] pre IH]; simpl.
  - intros _. by rewrite ref_matches_alive, bool_decide_eq_true_2.
  - rewrite not_elem_of_cons. intros [Hne Hnin].
    rewrite ref_matches_alive, bool_decide_eq_false_2 by done.
    by rewrite IH.
Qed.

(** Where a key sits in a dictionary that holds it. *)
Lemma key_position d k :
  k ∈ d.*1 → ∃ pre v0 post, d = pre ++ (k, v0) :: post ∧ k ∉ pre.*1.
Proof.
  induction d as [|[k0 w0] d IH]; simpl.
  - intros H. by apply elem_of_nil in H.
  - intros H. destruct (decide (k0 = k)) as [->|Hne].
    + exists [], w0, d. split; [done|]. apply not_elem_of_nil.
    + apply elem_of_cons in H as [?|H]; [congruence|].
      destruct (IH H) as (pre & v0 & post & -> & Hpre).
      exists ((k0, w0) :: pre), v0, post. split; [done|].
      simpl. rewrite not_elem_of_cons. auto.
Qed.

Lemma wkd_setitem_keys h d k v :
  k ∈ h → (wkd_setitem h d k v).*1 = if bool_decide (k ∈ d.*1) then d.*1 else d.*1 ++ [k].
Proof.
  intros Hk. case_bool_decide as Hin.
  - destruct (key_position d k Hin) as (pre & v0 & post & -> & Hpre).
    rewrite wkd_setitem_present by done. by rewrite !fmap_app.
  - rewrite wkd_setitem_fresh by done. by rewrite fmap_app.
Qed.

Lemma wkd_setitem_NoDup h d k v :
  k ∈ h → NoDup d.*1 → NoDup (wkd_setitem h d k v).*1.
Proof.
  intros Hk Hd. rewrite wkd_setitem_keys by done.
  case_bool_decide as Hin; [done|].
  apply NoDup_app. split_and!; [done| |apply NoDup_singleton].
  intros x Hx Hx'. apply list_elem_of_singleton in Hx'. by subst.
Qed.

Lemma wkd_setitem_Forall (P : obj * V → Prop) h d k v :
  Forall P d → P (k, v) → Forall P (wkd_setitem h d k v).
Proof.
  intros Hd Hkv. induction Hd as [|[k0 w0] d Hx Hd IH]; simpl.
  - by apply Forall_singleton.
  - destruct (ref_matches h k0 k) eqn:E.
    + apply ref_matches_spec in E as [_ ->]. by apply Forall_cons.
    + by apply Forall_cons.
Qed.



Lemma wkd_delitem_present h pre post k v :
  k ∈ h → k ∉ pre.*1 →
  wkd_delitem h (pre ++ (k, v) :: post) k = Return (pre ++ post).
Proof.
  intros Hk. induction pre as [|[k0 w0] pre IH]; simpl.
  - intros _. by rewrite ref_matches_alive, bool_decide_eq_true_2.
  - rewrite not_elem_of_cons. intros [Hne Hnin].
    rewrite ref_matches_alive, bool_decide_eq_false_2 by done.
    by rewrite IH.
Qed.

Lemma wkd_remove_absent d k : k ∉ d.*1 → wkd_remove k d = d.
Proof.
  unfold wkd_remove. induction d as [|[k0 w0] d IH]; simpl; [done|].
  rewrite not_elem_of_cons. intros [Hne Hnin].
  rewrite filter_cons_True by (simpl; congruence). by rewrite IH.
Qed.

Lemma wkd_remove_split pre post k v :
  NoDup (pre ++ (k, v) :: post).*1 →
  wkd_remove k (pre ++ (k, v) :: post) = pre ++ post.
Proof.
  rewrite fmap_app, fmap_cons. simpl. intros Hnd.
  apply NoDup_app in Hnd as (_ & Hdisj & Hpost).
  apply NoDup_cons in Hpost as [Hk _].
  assert (k ∉ pre.*1) as Hpre.
  { intros Hin. apply (Hdisj _ Hin). apply elem_of_cons. by left. }
  unfold wkd_remove. rewrite filter_app, filter_cons_False by (simpl; tauto).
  fold (wkd_remove k pre). fold (wkd_remove k post).
  by rewrite !wkd_remove_absent.
Qed.

Lemma wkd_values_app h d1 d2 :
  wkd_values h (d1 ++ d2) = wkd_values h d1 ++ wkd_values h d2.
Proof. unfold wkd_values. by rewrite filter_app, fmap_app. Qed.

Lemma wkd_values_cons_alive h k v d :
  k ∈ h → wkd_values h ((k, v) :: d) = v :: wkd_values h d.
Proof. intros Hk. unfold wkd_values. by rewrite filter_cons_True. Qed.

End WeakKeyDictionaryFacts.

(** ** The notification loop *)
Section NotifyFacts.
Variable behaviour : Behaviour.
Variable h : Heap.
Implicit Types (vs : list ObserverList.CallbackArgs) (args : gmap string PyVal).

Let loop := ObserverList.notify_loop behaviour h.

(** A loop over [vs1 ++ vs2] is the loop over [vs1] and, when that one
    ends normally, the loop over [vs2]. *)
Lemma notify_loop_app vs1 vs2 args :
  loop (vs1 ++ vs2) args =
    match loop vs1 args with
    | (calls1, Return _) =>
        let '(calls2, r) := loop vs2 args in (calls1 ++ calls2, r)
    | (calls1, Raise e) => (calls1, Raise e)
    end.
Proof.
  subst loop. induction vs1 as [|ca vs1 IH]; simpl.
  - by destruct (ObserverList.notify_loop behaviour h vs2 args).
  - destruct (merge_kwargs args (ObserverList.kwargs ca)) as [kw|e]; [|done].
    destruct (WeakMethod_call h (ObserverList.callback ca)) as [c|]; [|done].
    simpl. destruct (behaviour c kw) as [[]|e]; [|done].
    rewrite IH.
    destruct (ObserverList.notify_loop behaviour h vs1 args) as [calls1 [[]|e]];
      [|done].
    by destruct (ObserverList.notify_loop behaviour h vs2 args).
Qed.

(** Every call the loop makes comes from one of the values it walks:
    the callee is what the value's weak method yields, the keywords are
    the event's merged with the value's. *)
Lemma notify_loop_calls vs args c :
  c ∈ (loop vs args).1 →
  ∃ ca, ca ∈ vs
        ∧ WeakMethod_call h (ObserverList.callback ca) = Some (callee c)
        ∧ args ##ₘ ObserverList.kwargs ca
        ∧ call_kwargs c = args ∪ ObserverList.kwargs ca.
Proof.
  subst loop. induction vs as [|ca vs IH]; simpl.
  - intros H. by apply elem_of_nil in H.
  - unfold merge_kwargs. case_bool_decide as Hdisj; simpl.
    2: { intros H. by apply elem_of_nil in H. }
    destruct (WeakMethod_call h (ObserverList.callback ca)) as [c0|] eqn:Hc; simpl.
    2: { intros H. by apply elem_of_nil in H. }
    assert (∀ x, x = {| callee := c0;
                         call_kwargs := args ∪ ObserverList.kwargs ca |} →
                 c = x → ∃ ca0, ca0 ∈ ca :: vs
        ∧ WeakMethod_call h (ObserverList.callback ca0) = Some (callee c)
        ∧ args ##ₘ ObserverList.kwargs ca0
        ∧ call_kwargs c = args ∪ ObserverList.kwargs ca0) as Hhere.
    { intros x -> ->. exists ca. split; [apply elem_of_cons; by left|done]. }
    destruct (behaviour c0 (args ∪ ObserverList.kwargs ca)) as [[]|e]; simpl.
    + destruct (ObserverList.notify_loop behaviour h vs args) as [calls r] eqn:E.
      simpl in *. intros H. apply elem_of_cons in H as [H|H].
      * by eapply Hhere.
      * destruct (IH H) as (ca0 & Hin & Hrest).
        exists ca0. split; [apply elem_of_cons; by right|done].
    + intros H. apply list_elem_of_singleton in H. by eapply Hhere.
Qed.


Lemma WeakMethod_call_Some w c :
  WeakMethod_call h w = Some c → c = BoundMethod (wm_obj w) (wm_func w).
Proof.
  unfold WeakMethod_call.
  destruct (bool_decide (wm_obj w ∈ h) && bool_decide (wm_func w ∈ h)); congruence.
Qed.

(** The loop reaches a value after a prefix that ended normally. *)
Lemma notify_loop_reach vs1 ca vs2 args calls1 :
  loop vs1 args = (calls1, Return ()) →
  loop (vs1 ++ ca :: vs2) args =
    let '(calls2, r) := loop (ca :: vs2) args in (calls1 ++ calls2, r).
Proof. intros H. by rewrite notify_loop_app, H. Qed.
End NotifyFacts.

(** ** The observable: delegation to the event's list *)
Section ObservableFacts.
Implicit Types (s : Observable.t) (ev : Event) (h : Heap).

Lemma observers_of_store s ev ol ev' :
  observers_of (Observable.store s ev ol) ev' =
    if decide (ev = ev') then ObserverList._observers ol else observers_of s ev'.
Proof.
  unfold observers_of, Observable.store. simpl.
  rewrite lookup_insert. by destruct (decide (ev = ev')).
Qed.

Lemma get_observer_list_observers s ev :
  ObserverList._observers (Observable._get_observer_list s ev).2 = observers_of s ev.
Proof.
  unfold Observable._get_observer_list, observers_of.
  by destruct (Observable._observer_lists s !! ev).
Qed.

Lemma get_observer_list_other s ev ev' :
  ev ≠ ev' →
  Observable._observer_lists (Observable._get_observer_list s ev).1 !! ev'
    = Observable._observer_lists s !! ev'.
Proof.
  intros Hne. unfold Observable._get_observer_list.
  destruct (Observable._observer_lists s !! ev); simpl; [done|].
  by rewrite lookup_insert_ne.
Qed.

(** Writing back the list that is stored already changes nothing. *)
Lemma store_same s ev ol :
  Observable._observer_lists s !! ev = Some ol → Observable.store s ev ol = s.
Proof.
  intros H. destruct s as [m]. unfold Observable.store. simpl in *.
  by rewrite insert_id.
Qed.

Lemma add_observer_bound h s ev o f kw :
  Observable.add_observer h s ev (BoundMethod o f) kw =
    (Observable.store s ev
       {| ObserverList._observers :=
            wkd_setitem h (observers_of s ev) o (registration o f kw) |},
     Return o).
Proof.
  unfold Observable.add_observer, Observable._get_observer_list, observers_of.
  destruct (Observable._observer_lists s !! ev) as [ol|]; simpl; [done|].
  unfold Observable.store. simpl. by rewrite insert_insert_eq.
Qed.

Lemma notify_outcome behaviour h s ev args :
  (Observable.notify behaviour h s ev args).2 =
    ObserverList.notify_loop behaviour h (wkd_values h (observers_of s ev)) args.
Proof.
  unfold Observable.notify, Observable._get_observer_list, observers_of.
  by destruct (Observable._observer_lists s !! ev).
Qed.

Lemma notify_state_seen behaviour h s ev args ol :
  Observable._observer_lists s !! ev = Some ol →
  (Observable.notify behaviour h s ev args).1 = s.
Proof.
  intros H. unfold Observable.notify, Observable._get_observer_list.
  rewrite H. simpl. by apply store_same.
Qed.

Lemma notify_state_unseen behaviour h s ev args :
  Observable._observer_lists s !! ev = None →
  (Observable.notify behaviour h s ev args).1 =
    Observable.store s ev ObserverList.__init__.
Proof.
  intros H. unfold Observable.notify, Observable._get_observer_list.
  rewrite H. simpl. unfold Observable.store. simpl. by rewrite insert_insert_eq.
Qed.

(** The invariant: it holds initially and every method keeps it. *)
Lemma well_formed_init : well_formed Observable.__init__.
Proof. unfold well_formed. simpl. apply map_Forall_empty. Qed.

Lemma well_formed_observers s ev :
  well_formed s →
  NoDup (observers_of s ev).*1
  ∧ Forall (λ e, wm_obj (ObserverList.callback e.2) = e.1) (observers_of s ev).
Proof.
  intros Hwf. unfold observers_of.
  destruct (Observable._observer_lists s !! ev) as [ol|] eqn:E.
  - apply (Hwf _ _ E).
  - simpl. split; [apply NoDup_nil_2|apply Forall_nil_2].
Qed.

Lemma well_formed_store s ev ol :
  well_formed s → distinct_keys ol → keyed_by_owner ol →
  well_formed (Observable.store s ev ol).
Proof.
  intros Hs Hol Hk. unfold well_formed, Observable.store. simpl.
  by apply map_Forall_insert_2.
Qed.

Lemma well_formed_add_observer h s ev o f kw :
  o ∈ h → well_formed s →
  well_formed (Observable.add_observer h s ev (BoundMethod o f) kw).1.
Proof.
  intros Ho Hs. rewrite add_observer_bound. simpl.
  destruct (well_formed_observers s ev Hs) as [Hnd Hkey].
  apply well_formed_store; [done| |].
  - unfold distinct_keys. simpl. by apply wkd_setitem_NoDup.
  - unfold keyed_by_owner. simpl. by apply wkd_setitem_Forall.
Qed.

Lemma well_formed_add_observer_unbound h s ev cb kw :
  (∀ o f, cb ≠ BoundMethod o f) → well_formed s →
  well_formed (Observable.add_observer h s ev cb kw).1.
Proof.
  intros Hcb Hs.
  assert (ObserverList.add_observer h (Observable._get_observer_list s ev).2 cb kw
          = ((Observable._get_observer_list s ev).2,
             (ObserverList.add_observer h (Observable._get_observer_list s ev).2 cb kw).2))
    as Hsame.
  { destruct cb as [o f| |]; [by destruct (Hcb o f)|done..]. }
  unfold Observable.add_observer.
  destruct (Observable._get_observer_list s ev) as [s1 ol] eqn:Hget.
  simpl in Hsame. rewrite Hsame. simpl.
  unfold Observable._get_observer_list in Hget.
  destruct (Observable._observer_lists s !! ev) as [ol0|] eqn:E.
  - injection Hget as <- <-. by rewrite store_same.
  - injection Hget as <- <-.
    apply well_formed_store; [|apply NoDup_nil_2|apply Forall_nil_2].
    apply well_formed_store; [done|apply NoDup_nil_2|apply Forall_nil_2].
Qed.

Lemma well_formed_notify behaviour h s ev args :
  well_formed s → well_formed (Observable.notify behaviour h s ev args).1.
Proof.
  intros Hs. destruct (Observable._observer_lists s !! ev) as [ol|] eqn:E.
  - by erewrite notify_state_seen.
  - rewrite notify_state_unseen by done.
    apply well_formed_store; [done|apply NoDup_nil_2|apply Forall_nil_2].
Qed.
End ObservableFacts.

(** ** Who gets called *)
Section CallFacts.
Variable behaviour : Behaviour.
Variable h : Heap.
Implicit Types (d : list (obj * ObserverList.CallbackArgs)) (args : gmap string PyVal).



(** A call made while walking a dictionary is delivered to the owner
    some live entry is filed under, with that entry's keywords. *)
Lemma notify_loop_receiver d args c :
  Forall (λ e, wm_obj (ObserverList.callback e.2) = e.1) d →
  c ∈ (ObserverList.notify_loop behaviour h (wkd_values h d) args).1 →
  ∃ k ca, (k, ca) ∈ d ∧ k ∈ h
          ∧ callee c = BoundMethod k (wm_func (ObserverList.callback ca))
          ∧ call_kwargs c = args ∪ ObserverList.kwargs ca.
Proof.
  intros Hkey Hc.
  destruct (notify_loop_calls _ _ _ _ _ Hc) as (ca & Hin & Hcall & _ & Hkw).
  unfold wkd_values in Hin. apply list_elem_of_fmap in Hin as ([k ca'] & -> & Hin).
  apply list_elem_of_filter in Hin as [Hk Hin]. simpl in *.
  exists k, ca'. split_and!; [done..| |done].
  apply WeakMethod_call_Some in Hcall. rewrite Hcall.
  rewrite Forall_forall in Hkey. specialize (Hkey _ Hin). simpl in Hkey.
  by rewrite Hkey.
Qed.
End CallFacts.

(** * The properties of the specification *)

(** ** Registration followed by notification: an earlier callback raises *)


(** ** C2: registrations whose weak references have expired *)

(** [notify] leaves the dictionary as it found it. *)
Lemma notify_keeps_observers behaviour h ol args :
  (ObserverList.notify behaviour h ol args).1 = ol.
Proof. done. Qed.

(** A registration whose owner died is passed over: the walk is the one
    over the dictionary without it. *)
Lemma notify_skips_dead_owner behaviour h ol args o :
  o ∉ h →
  (ObserverList.notify behaviour h ol args).2 =
    (ObserverList.notify behaviour h
       {| ObserverList._observers := wkd_remove o (ObserverList._observers ol) |}
       args).2.
Proof.
  intros Ho. unfold ObserverList.notify. simpl. f_equal.
  destruct ol as [d]. simpl. unfold wkd_values, wkd_remove. f_equal.
  induction d as [|[k v] d IH]; [done|].
  destruct (decide (k ∈ h)) as [Hk|Hk].
  - rewrite (filter_cons_True (λ e, e.1 ≠ o)) by (simpl; congruence).
    rewrite !filter_cons_True by done. by rewrite IH.
  - rewrite (filter_cons_False (λ e, e.1 ∈ h)) by done.
    destruct (decide (k = o)) as [->|Hne].
    + rewrite filter_cons_False by (simpl; tauto). done.
    + rewrite filter_cons_True by done.
      rewrite (filter_cons_False (λ e, e.1 ∈ h)) by done. done.
Qed.

(** A registration whose owner is alive while the function of its
    callback is gone is not passed over: the walk calls [None]. *)
Lemma notify_expired_function behaviour h ol args pre o ca post calls :
  ObserverList._observers ol = pre ++ (o, ca) :: post →
  o ∈ h → wm_func (ObserverList.callback ca) ∉ h →
  args ##ₘ ObserverList.kwargs ca →
  ObserverList.notify_loop behaviour h (wkd_values h pre) args = (calls, Return ()) →
  ObserverList.notify behaviour h ol args =
    (ol, (calls, Raise (TypeError "'NoneType' object is not callable"))).
Proof.
  intros Hd Ho Hf Hdisj Hpre. unfold ObserverList.notify. f_equal.
  rewrite Hd, wkd_values_app, wkd_values_cons_alive by done.
  rewrite (notify_loop_reach _ _ _ _ _ _ _ Hpre). simpl.
  unfold merge_kwargs. rewrite bool_decide_eq_true_2 by done.
  unfold WeakMethod_call. rewrite (bool_decide_eq_false_2 (wm_func _ ∈ h)) by done.
  rewrite andb_false_r. simpl. by rewrite app_nil_r.
Qed.

(** C2.  [handler.on_tick] and [logger.on_log] are registered; the
    function [on_tick] is then destroyed while [handler] lives on.
    [notify] does not pass the expired registration over: it raises
    [TypeError], and [logger.on_log], alive and next in line, is not
    called.  The dictionary is left as it was. *)
Theorem notify_expired_callback_raises :
  let ol1 := (ObserverList.add_observer Scenario.everything ObserverList.__init__
                (BoundMethod Scenario.handler Scenario.on_tick) ∅).1 in
  let ol2 := (ObserverList.add_observer Scenario.everything ol1
                (BoundMethod Scenario.logger Scenario.on_log) ∅).1 in
  let h := Scenario.everything ∖ {[ Scenario.on_tick ]} in
  ObserverList.notify Scenario.quiet h ol2 ∅ =
    (ol2, ([], Raise (TypeError "'NoneType' object is not callable"))).
Proof. vm_compute. reflexivity. Qed.

(** ** Removal from a list *)

Lemma remove_observer_absent h ol id :
  ¬ live_registration h ol id →
  ObserverList.remove_observer h ol id =
    (ol, Raise (RuntimeError "Unknown callback ID")).
Proof.
  intros Hno. unfold ObserverList.remove_observer.
  destruct (wkd_contains h (ObserverList._observers ol) id) eqn:E; [|done].
  apply wkd_contains_spec in E as [Hid Hin]. destruct Hno. split; [done|].
  apply list_elem_of_fmap in Hin as ([k ca] & -> & Hin). by exists ca.
Qed.

Lemma remove_observer_present h ol id :
  live_registration h ol id →
  ∃ pre ca post,
    ObserverList._observers ol = pre ++ (id, ca) :: post
    ∧ (id ∉ pre.*1)
    ∧ ObserverList.remove_observer h ol id =
        ({| ObserverList._observers := pre ++ post |}, Return ()).
Proof.
  intros [Hid [ca0 Hin]].
  assert (id ∈ (ObserverList._observers ol).*1) as Hkey.
  { apply list_elem_of_fmap. by exists (id, ca0). }
  destruct (key_position _ _ Hkey) as (pre & ca & post & Hd & Hpre).
  exists pre, ca, post. split_and!; [done..|].
  unfold ObserverList.remove_observer.
  assert (wkd_contains h (ObserverList._observers ol) id = true) as ->.
  { by apply wkd_contains_spec. }
  simpl. by rewrite Hd, wkd_delitem_present.
Qed.

Lemma remove_observer_delegates h s event id :
  (Observable.remove_observer h s event id).2 =
    (ObserverList.remove_observer h
       {| ObserverList._observers := observers_of s event |} id).2.
Proof.
  unfold Observable.remove_observer, Observable._get_observer_list, observers_of.
  destruct (Observable._observer_lists s !! event) as [[d]|]; simpl.
  - by destruct (ObserverList.remove_observer h {| ObserverList._observers := d |} id).
  - done.
Qed.

(** Removal keeps the invariant. *)
Lemma well_formed_remove_observer h s ev id :
  well_formed s → well_formed (Observable.remove_observer h s ev id).1.
Proof.
  intros Hs. destruct (well_formed_observers s ev Hs) as [Hnd Hkey].
  unfold Observable.remove_observer.
  pose proof (get_observer_list_observers s ev) as Hobs.
  assert (well_formed (Observable._get_observer_list s ev).1) as Hs1.
  { unfold Observable._get_observer_list.
    destruct (Observable._observer_lists s !! ev); simpl; [done|].
    apply well_formed_store; [done|apply NoDup_nil_2|apply Forall_nil_2]. }
  destruct (Observable._get_observer_list s ev) as [s1 ol]. simpl in *.
  assert (live_registration h ol id ∨ ¬ live_registration h ol id) as [Hlive|Hno].
  { destruct (wkd_contains h (ObserverList._observers ol) id) eqn:E.
    - left. apply wkd_contains_spec in E as [Hid Hin]. split; [done|].
      apply list_elem_of_fmap in Hin as ([k ca] & -> & Hin). by exists ca.
    - right. intros [Hid [ca Hin]].
      assert (wkd_contains h (ObserverList._observers ol) id = true) as E'.
      { apply wkd_contains_spec. split; [done|].
        apply list_elem_of_fmap. by exists (id, ca). }
      congruence. }
  - destruct (remove_observer_present h ol id Hlive)
      as (pre & ca & post & Hd & _ & ->).
    simpl. rewrite <- Hobs, Hd in Hnd, Hkey.
    apply well_formed_store; [done| |].
    + unfold distinct_keys. simpl.
      rewrite fmap_app, fmap_cons in Hnd. rewrite fmap_app.
      apply NoDup_app in Hnd as (Hpre & Hdisj & Hpost).
      apply NoDup_cons in Hpost as [_ Hpost].
      apply NoDup_app. split_and!; [done| |done].
      intros x Hx Hx'. apply (Hdisj x Hx). apply elem_of_cons. by right.
    + unfold keyed_by_owner. simpl.
      apply Forall_app in Hkey as [Hkpre Hkpost].
      apply Forall_cons in Hkpost as [_ Hkpost]. by apply Forall_app.
  - rewrite remove_observer_absent by done. simpl.
    apply well_formed_store; [done| |].
    + unfold distinct_keys. by rewrite Hobs.
    + unfold keyed_by_owner. by rewrite Hobs.
Qed.

(** ** C4: one registration per owner and event *)
Section OnePerOwner.
Variable behaviour : Behaviour.
Variable h : Heap.
Implicit Types (d : list (obj * ObserverList.CallbackArgs)) (args : gmap string PyVal).



End OnePerOwner.



(** ** C5: an exception raised by a callback *)

(** C5.  The walk reaches a live registration after a prefix that ended
    normally, and its callback raises [e]: [notify] ends with [e] itself,
    the raising call is the last one made, and no registration after it
    is visited.  The same holds through [Observable.notify]. *)
Theorem callback_exception_propagates
    (behaviour : Behaviour) (h : Heap) (ol : ObserverList.t)
    (args : gmap string PyVal)
    (pre post : list (obj * ObserverList.CallbackArgs))
    (o : obj) (ca : ObserverList.CallbackArgs) (c : Callable) (e : PyExn)
    (calls : list Call) :
  ObserverList._observers ol = pre ++ (o, ca) :: post →
  o ∈ h →
  WeakMethod_call h (ObserverList.callback ca) = Some c →
  args ##ₘ ObserverList.kwargs ca →
  ObserverList.notify_loop behaviour h (wkd_values h pre) args = (calls, Return ()) →
  behaviour c (args ∪ ObserverList.kwargs ca) = Raise e →
  let call := {| callee := c; call_kwargs := args ∪ ObserverList.kwargs ca |} in
  ObserverList.notify behaviour h ol args = (ol, (calls ++ [call], Raise e))
  ∧ ∀ (s : Observable.t) (event : Event),
      Observable._observer_lists s !! event = Some ol →
      Observable.notify behaviour h s event args = (s, (calls ++ [call], Raise e)).
Proof.
  intros Hd Ho Hc Hdisj Hpre He call.
  assert (ObserverList.notify_loop behaviour h
            (wkd_values h (ObserverList._observers ol)) args
          = (calls ++ [call], Raise e)) as Hloop.
  { rewrite Hd, wkd_values_app, wkd_values_cons_alive by done.
    rewrite (notify_loop_reach _ _ _ _ _ _ _ Hpre). simpl.
    unfold merge_kwargs. rewrite bool_decide_eq_true_2 by done.
    rewrite Hc. simpl. by rewrite He. }
  split.
  - unfold ObserverList.notify. by rewrite Hloop.
  - intros s event Hev.
    rewrite (surjective_pairing (Observable.notify behaviour h s event args)).
    rewrite (notify_state_seen _ _ _ _ _ _ Hev), notify_outcome.
    unfold observers_of. by rewrite Hev, Hloop.
Qed.

(** [logger.on_log] raises; [handler.on_tick], registered after it, is
    not called and the caller of [notify] gets the very exception. *)
Lemma callback_exception_propagates_witness :
  let ol := {| ObserverList._observers :=
    [ (Scenario.logger, registration Scenario.logger Scenario.on_log ∅);
      (Scenario.handler, registration Scenario.handler Scenario.on_tick ∅) ] |} in
  let behaviour :=
    Scenario.failing (BoundMethod Scenario.logger Scenario.on_log) (UserError 7) in
  ObserverList.notify behaviour Scenario.everything ol ∅ =
    (ol, ([] ++ [ {| callee := BoundMethod Scenario.logger Scenario.on_log;
                     call_kwargs := ∅ ∪ ∅ |} ],
          Raise (UserError 7))).
Proof.
  intros ol behaviour.
  apply (callback_exception_propagates behaviour Scenario.everything ol ∅
           [] [(Scenario.handler, registration Scenario.handler Scenario.on_tick ∅)]
           Scenario.logger (registration Scenario.logger Scenario.on_log ∅)
           (BoundMethod Scenario.logger Scenario.on_log) (UserError 7) []).
  - reflexivity.
  - compute_done.
  - vm_compute. reflexivity.
  - compute_done.
  - reflexivity.
  - vm_compute. reflexivity.
Defined.

(** ** C9: a keyword given both at registration and at notification *)

(** C9.  The walk reaches a registration whose owner is alive and whose
    stored keywords share the key [k] with the event's: [notify] raises
    the duplicate-keyword [TypeError] there, and the callback is not
    called with either value. *)
Theorem notify_duplicate_keyword
    (behaviour : Behaviour) (h : Heap) (ol : ObserverList.t)
    (args : gmap string PyVal)
    (pre post : list (obj * ObserverList.CallbackArgs))
    (o : obj) (ca : ObserverList.CallbackArgs) (k : string)
    (calls : list Call) :
  ObserverList._observers ol = pre ++ (o, ca) :: post →
  o ∈ h →
  is_Some (args !! k) → is_Some (ObserverList.kwargs ca !! k) →
  ObserverList.notify_loop behaviour h (wkd_values h pre) args = (calls, Return ()) →
  ObserverList.notify behaviour h ol args =
    (ol, (calls, Raise (TypeError "got multiple values for keyword argument"))).
Proof.
  intros Hd Ho [x Hx] [y Hy] Hpre. unfold ObserverList.notify. f_equal.
  rewrite Hd, wkd_values_app, wkd_values_cons_alive by done.
  rewrite (notify_loop_reach _ _ _ _ _ _ _ Hpre). simpl.
  unfold merge_kwargs. rewrite bool_decide_eq_false_2.
  - by rewrite app_nil_r.
  - intros Hdisj. by apply (map_disjoint_spec _ _ ) with (i := k) (x := x) (y := y) in Hdisj.
Qed.

(** [handler.on_tick] is registered with [phase=1] and the event is
    raised with [phase=2]. *)
Lemma notify_duplicate_keyword_witness :
  let ol := {| ObserverList._observers :=
    [ (Scenario.handler,
       registration Scenario.handler Scenario.on_tick {[ "phase" := PyInt 1 ]}) ] |} in
  ObserverList.notify Scenario.quiet Scenario.everything ol {[ "phase" := PyInt 2 ]} =
    (ol, ([], Raise (TypeError "got multiple values for keyword argument"))).
Proof.
  intros ol.
  apply (notify_duplicate_keyword Scenario.quiet Scenario.everything ol
           {[ "phase" := PyInt 2 ]} [] []
           Scenario.handler
           (registration Scenario.handler Scenario.on_tick {[ "phase" := PyInt 1 ]})
           "phase" []).
  - reflexivity.
  - compute_done.
  - exists (PyInt 2). vm_compute. reflexivity.
  - exists (PyInt 1). vm_compute. reflexivity.
  - reflexivity.
Defined.

(** ** C8: events do not interfere *)

(** C8.  Registering for event [A] leaves the list of every other event
    [B] as it was, so a later [notify] of [B] makes the calls it would
    have made without the registration; a callback that has no
    registration under [B] is not among them. *)
Theorem events_are_independent
    (h : Heap) (s : Observable.t) (A B : Event) (cb : Callable)
    (kw : gmap string PyVal) :
  A ≠ B →
  let s1 := (Observable.add_observer h s A cb kw).1 in
  Observable._observer_lists s1 !! B = Observable._observer_lists s !! B
  ∧ ∀ (behaviour : Behaviour) (h' : Heap) (args : gmap string PyVal),
      (Observable.notify behaviour h' s1 B args).2
        = (Observable.notify behaviour h' s B args).2
      ∧ ((∀ o ca, (o, ca) ∈ observers_of s B →
                  WeakMethod_new cb ≠ Return (ObserverList.callback ca)) →
         ∀ c, c ∈ (Observable.notify behaviour h' s1 B args).2.1 → callee c ≠ cb).
Proof.
  intros Hne s1.
  assert (Observable._observer_lists s1 !! B = Observable._observer_lists s !! B)
    as Hsame.
  { subst s1. unfold Observable.add_observer.
    pose proof (get_observer_list_other s A B Hne) as Hget.
    destruct (Observable._get_observer_list s A) as [s0 ol].
    destruct (ObserverList.add_observer h ol cb kw) as [ol' r]. simpl in *.
    by rewrite lookup_insert_ne. }
  assert (observers_of s1 B = observers_of s B) as Hobs.
  { unfold observers_of. by rewrite Hsame. }
  split; [done|]. intros behaviour h' args.
  rewrite !notify_outcome, Hobs. split; [done|].
  intros Hnot c Hc Heq.
  destruct (notify_loop_calls _ _ _ _ _ Hc) as (ca & Hin & Hcall & _).
  unfold wkd_values in Hin. apply list_elem_of_fmap in Hin as ([o ca'] & -> & Hin).
  apply list_elem_of_filter in Hin as [_ Hin]. simpl in *.
  apply (Hnot _ _ Hin). apply WeakMethod_call_Some in Hcall.
  rewrite <- Heq, Hcall. simpl. by destruct (ObserverList.callback ca').
Qed.

(** [handler.on_tick] is registered for "tock" on an observable where
    only [logger.on_log] observes "tick"; raising "tick" calls the
    logger alone. *)
Lemma events_are_independent_witness :
  let s1 := (Observable.add_observer Scenario.everything Scenario.logged "tock"
               (BoundMethod Scenario.handler Scenario.on_tick) ∅).1 in
  Observable._observer_lists s1 !! "tick"
    = Observable._observer_lists Scenario.logged !! "tick"
  ∧ (Observable.notify Scenario.quiet Scenario.everything s1 "tick" ∅).2
    = ([ {| callee := BoundMethod Scenario.logger Scenario.on_log;
            call_kwargs := ∅ ∪ ∅ |} ], Return ()).
Proof.
  intros s1. split.
  - apply (events_are_independent Scenario.everything Scenario.logged
             "tock" "tick" (BoundMethod Scenario.handler Scenario.on_tick) ∅).
    discriminate.
  - vm_compute. reflexivity.
Defined.

(** ** C10: a callback that is not a bound method *)

(** C10.  For a plain function [add_observer] raises [AttributeError]
    and the list is unchanged.  Through [Observable.add_observer] the
    same error comes out and no event's registrations change. *)
Theorem add_observer_plain_function
    (h : Heap) (ol : ObserverList.t) (f : obj) (kw : gmap string PyVal) :
  ObserverList.add_observer h ol (PlainFunction f) kw =
    (ol, Raise (AttributeError "'function' object has no attribute '__self__'"))
  ∧ ∀ (s : Observable.t) (event : Event),
      (Observable.add_observer h s event (PlainFunction f) kw).2
        = Raise (AttributeError "'function' object has no attribute '__self__'")
      ∧ ∀ ev', observers_of (Observable.add_observer h s event (PlainFunction f) kw).1 ev'
               = observers_of s ev'.
Proof.
  split; [done|]. intros s event.
  unfold Observable.add_observer, Observable._get_observer_list.
  destruct (Observable._observer_lists s !! event) as [ol0|] eqn:E; simpl.
  - split; [done|]. intros ev'. by rewrite store_same.
  - split; [done|]. intros ev'. rewrite observers_of_store. simpl.
    destruct (decide (event = ev')) as [<-|Hne].
    + unfold observers_of. by rewrite E.
    + unfold observers_of. simpl. by rewrite lookup_insert_ne.
Qed.

(** ** The worked run of the specification

    [o.add_observer("tick", handler.on_tick, phase=1)] and
    [o.notify("tick", count=5)] call [handler.on_tick(count=5, phase=1)]
    once; after [o.remove_observer("tick", id)] the notification
    [o.notify("tick", count=6)] calls nothing. *)
Example register_notify_remove_notify :
  let '(o1, id) :=
    Observable.add_observer Scenario.everything Observable.__init__ "tick"
      (BoundMethod Scenario.handler Scenario.on_tick) {[ "phase" := PyInt 1 ]} in
  let '(o2, out1) :=
    Observable.notify Scenario.quiet Scenario.everything o1 "tick"
      {[ "count" := PyInt 5 ]} in
  let '(o3, r) :=
    Observable.remove_observer Scenario.everything o2 "tick" Scenario.handler in
  let '(o4, out2) :=
    Observable.notify Scenario.quiet Scenario.everything o3 "tick"
      {[ "count" := PyInt 6 ]} in
  id = Return Scenario.handler
  ∧ out1 = ([ {| callee := BoundMethod Scenario.handler Scenario.on_tick;
                 call_kwargs := {[ "count" := PyInt 5; "phase" := PyInt 1 ]} |} ],
            Return ())
  ∧ r = Return ()
  ∧ out2 = ([], Return ()).
Proof. vm_compute. done. Qed.

(** * Further properties of the code *)

(** ** Sequences of method calls *)
Section Runs.
Implicit Types (s : Observable.t) (m : MethodCall) (ms : list MethodCall).

Lemma perform_well_formed s m :
  owner_alive m → well_formed s → well_formed (perform s m).
Proof.
  intros Hm Hs. destruct m as [h ev cb kw|h ev id|behaviour h ev args]; simpl.
  - destruct cb as [o f|o|f].
    + by apply well_formed_add_observer.
    + by apply well_formed_add_observer_unbound.
    + by apply well_formed_add_observer_unbound.
  - by apply well_formed_remove_observer.
  - by apply well_formed_notify.
Qed.
End Runs.

(** ** What a notification delivers *)
Section Delivery.
Variable behaviour : Behaviour.
Variable h : Heap.
Implicit Types (vs : list ObserverList.CallbackArgs) (args : gmap string PyVal).

Lemma WeakMethod_call_Some_alive w c :
  WeakMethod_call h w = Some c → wm_obj w ∈ h ∧ wm_func w ∈ h.
Proof.
  unfold WeakMethod_call.
  destruct (bool_decide (wm_obj w ∈ h) && bool_decide (wm_func w ∈ h)) eqn:E;
    [|done].
  intros _. apply andb_true_iff in E as [E1 E2].
  by apply bool_decide_eq_true in E1, E2.
Qed.


End Delivery.



(** ** Registration order *)
Section Order.
Context {V : Type}.
Implicit Types (d : list (obj * V)) (h : Heap) (k : obj) (v : V).

Lemma wkd_remove_not_in d k : k ∉ (wkd_remove k d).*1.
Proof.
  intros Hin. apply list_elem_of_fmap in Hin as ([k' v] & -> & Hin).
  unfold wkd_remove in Hin. apply list_elem_of_filter in Hin as [Hne _].
  by apply Hne.
Qed.
End Order.

(** ** Removal *)

Lemma get_observer_list_state s ev :
  Observable.store (Observable._get_observer_list s ev).1 ev
    {| ObserverList._observers := observers_of s ev |}
  = (Observable._get_observer_list s ev).1.
Proof.
  unfold Observable._get_observer_list, observers_of.
  destruct (Observable._observer_lists s !! ev) as [[d]|] eqn:E; simpl.
  - by apply store_same.
  - unfold Observable.store. simpl. by rewrite insert_insert_eq.
Qed.

Lemma observers_of_get_observer_list s ev ev' :
  observers_of (Observable._get_observer_list s ev).1 ev' = observers_of s ev'.
Proof.
  unfold Observable._get_observer_list.
  destruct (Observable._observer_lists s !! ev) as [ol|] eqn:E; simpl; [done|].
  unfold observers_of. simpl. rewrite lookup_insert.
  destruct (decide (ev = ev')) as [<-|]; [|done]. by rewrite E.
Qed.

Lemma remove_observer_unfold h s ev id :
  Observable.remove_observer h s ev id =
    (Observable.store (Observable._get_observer_list s ev).1 ev
       (ObserverList.remove_observer h
          {| ObserverList._observers := observers_of s ev |} id).1,
     (ObserverList.remove_observer h
        {| ObserverList._observers := observers_of s ev |} id).2).
Proof.
  unfold Observable.remove_observer, Observable._get_observer_list, observers_of.
  destruct (Observable._observer_lists s !! ev) as [[d]|]; simpl.
  - by destruct (ObserverList.remove_observer h {| ObserverList._observers := d |} id).
  - done.
Qed.

(** X8.  [Observable.remove_observer] with the identifier of a live
    owner registered for the event returns normally and takes out that
    owner's registration and nothing else: the other registrations of
    the event keep their order, the lists of the other events are not
    touched, and no later [notify] of the event calls the owner. *)
Theorem remove_observer_removes_only_the_owner
    (h : Heap) (s : Observable.t) (event : Event) (id : obj) :
  well_formed s → id ∈ h → id ∈ (observers_of s event).*1 →
  let s1 := (Observable.remove_observer h s event id).1 in
  (Observable.remove_observer h s event id).2 = Return ()
  ∧ observers_of s1 event = wkd_remove id (observers_of s event)
  ∧ (∀ ev', event ≠ ev' →
       Observable._observer_lists s1 !! ev' = Observable._observer_lists s !! ev')
  ∧ ∀ (behaviour : Behaviour) (h' : Heap) (args : gmap string PyVal) (c : Call),
      c ∈ (Observable.notify behaviour h' s1 event args).2.1 →
      receiver c ≠ Some id.
Proof.
  intros Hwf Hid Hin s1.
  destruct (well_formed_observers s event Hwf) as [Hnd Hkey].
  assert (live_registration h {| ObserverList._observers := observers_of s event |} id)
    as Hlive.
  { split; [done|]. simpl.
    apply list_elem_of_fmap in Hin as ([k ca] & -> & Hin). by exists ca. }
  destruct (remove_observer_present _ _ _ Hlive) as (pre & ca & post & Hd & Hpre & E).
  simpl in Hd.
  assert (observers_of s1 event = wkd_remove id (observers_of s event)) as Hobs.
  { subst s1. rewrite remove_observer_unfold, E. simpl.
    rewrite observers_of_store, decide_True by done. simpl.
    rewrite Hd in Hnd |- *. by rewrite wkd_remove_split. }
  split_and!.
  - by rewrite remove_observer_unfold, E.
  - done.
  - intros ev' Hne. subst s1. rewrite remove_observer_unfold. simpl.
    rewrite lookup_insert_ne by done. by apply get_observer_list_other.
  - intros behaviour h' args c Hc Hrecv.
    rewrite notify_outcome, Hobs in Hc.
    assert (Forall (λ e, wm_obj (ObserverList.callback e.2) = e.1)
              (wkd_remove id (observers_of s event))) as Hkey'.
    { unfold wkd_remove. rewrite Forall_forall in Hkey |- *.
      intros e He. apply list_elem_of_filter in He as [_ He]. by apply Hkey. }
    destruct (notify_loop_receiver _ _ _ _ _ Hkey' Hc)
      as (k & ca' & Hin' & _ & Hcallee & _).
    unfold receiver in Hrecv. rewrite Hcallee in Hrecv. injection Hrecv as ->.
    apply (wkd_remove_not_in (observers_of s event) id).
    apply list_elem_of_fmap. by exists (id, ca').
Qed.

(** [logger] leaves "tick", where [handler] observes too. *)
Lemma remove_observer_removes_only_the_owner_witness :
  let s := (Observable.add_observer Scenario.everything Scenario.logged "tick"
              (BoundMethod Scenario.handler Scenario.on_tick) ∅).1 in
  observers_of (Observable.remove_observer Scenario.everything s "tick"
                  Scenario.logger).1 "tick"
  = wkd_remove Scenario.logger (observers_of s "tick").
Proof.
  intros s.
  apply (remove_observer_removes_only_the_owner Scenario.everything s "tick"
           Scenario.logger).
  - apply well_formed_add_observer; [compute_done|].
    apply well_formed_add_observer; [compute_done|apply well_formed_init].
  - compute_done.
  - compute_done.
Defined.

(** ** Rejected callbacks and read-only notification *)

(** X11.  A callable that has [__self__] but no [__func__], such as a
    method of a built-in object, gets past the first statement of
    [add_observer] and is rejected by [WeakMethod] with a [TypeError];
    the list is unchanged, and through [Observable.add_observer] no
    event's registrations change. *)
Theorem add_observer_builtin_method
    (h : Heap) (ol : ObserverList.t) (self : obj) (kw : gmap string PyVal) :
  ObserverList.add_observer h ol (BuiltinMethod self) kw =
    (ol, Raise (TypeError "argument should be a bound method"))
  ∧ ∀ (s : Observable.t) (event : Event),
      (Observable.add_observer h s event (BuiltinMethod self) kw).2
        = Raise (TypeError "argument should be a bound method")
      ∧ ∀ ev', observers_of (Observable.add_observer h s event (BuiltinMethod self) kw).1 ev'
               = observers_of s ev'.
Proof.
  split; [done|]. intros s event.
  unfold Observable.add_observer.
  pose proof (get_observer_list_observers s event) as Hobs.
  pose proof (get_observer_list_state s event) as Hst.
  destruct (Observable._get_observer_list s event) as [s1 [d]] eqn:Hget.
  simpl in *. split; [done|]. intros ev'. subst d. rewrite Hst.
  pose proof (observers_of_get_observer_list s event ev') as H.
  by rewrite Hget in H.
Qed.

(** ** A notification that raises *)


(** * The mechanism in full: properties *)

(** ** The dictionary of weak references *)
Section FullDictFacts.
Context {V : Type}.
Variable T : Full.Traits.
Variable h : Heap.
Implicit Types (d pre post : list (obj * V)) (k key : obj) (v : V).

Lemma ref_eq_spec k key :
  Full.ref_eq T h k key = true
  ↔ k ∈ h ∧ Full.value_of T k = Full.value_of T key.
Proof.
  unfold Full.ref_eq. rewrite andb_true_iff, !bool_decide_eq_true. done.
Qed.

(** The first entry that answers to a key, if there is one. *)
Lemma first_match d key :
  existsb (λ e, Full.ref_eq T h e.1 key) d = true →
  ∃ pre e post,
    d = pre ++ e :: post
    ∧ Full.ref_eq T h e.1 key = true
    ∧ Forall (λ x, Full.ref_eq T h x.1 key = false) pre.
Proof.
  induction d as [|e d IH]; simpl; [done|].
  destruct (Full.ref_eq T h e.1 key) eqn:E; simpl.
  - intros _. exists [], e, d. split_and!; [done..|apply Forall_nil_2].
  - intros H. destruct (IH H) as (pre & e' & post & -> & He' & Hpre).
    exists (e :: pre), e', post. split_and!; [done..|].
    by apply Forall_cons.
Qed.

Lemma no_match d key :
  existsb (λ e, Full.ref_eq T h e.1 key) d = false →
  Forall (λ x, Full.ref_eq T h x.1 key = false) d.
Proof.
  induction d as [|e d IH]; simpl; [intros _; apply Forall_nil_2|].
  rewrite orb_false_iff. intros [He Hd]. apply Forall_cons. auto.
Qed.

Lemma existsb_match d key :
  existsb (λ e, Full.ref_eq T h e.1 key) d = true
  ↔ ∃ e, e ∈ d ∧ e.1 ∈ h ∧ Full.value_of T e.1 = Full.value_of T key.
Proof.
  induction d as [|e d IH]; simpl.
  - split; [done|]. intros (e & He & _). by apply elem_of_nil in He.
  - rewrite orb_true_iff, IH, ref_eq_spec. split.
    + intros [[H1 H2]|(e' & He' & H')].
      * exists e. split; [apply elem_of_cons; by left|done].
      * exists e'. split; [apply elem_of_cons; by right|done].
    + intros (e' & He' & H'). apply elem_of_cons in He' as [->|He'].
      * by left.
      * right. by exists e'.
Qed.

Lemma replace_or_append_match pre e post key v :
  Forall (λ x, Full.ref_eq T h x.1 key = false) pre →
  Full.ref_eq T h e.1 key = true →
  Full.replace_or_append T h (pre ++ e :: post) key v = pre ++ (e.1, v) :: post.
Proof.
  intros Hpre He. induction Hpre as [|x pre Hx _ IH]; simpl.
  - by rewrite He.
  - by rewrite Hx, IH.
Qed.

Lemma replace_or_append_no_match d key v :
  Forall (λ x, Full.ref_eq T h x.1 key = false) d →
  Full.replace_or_append T h d key v = d ++ [(key, v)].
Proof.
  induction 1 as [|x d Hx _ IH]; simpl; [done|]. by rewrite Hx, IH.
Qed.

Lemma remove_first_match pre e post key :
  Forall (λ x, Full.ref_eq T h x.1 key = false) pre →
  Full.ref_eq T h e.1 key = true →
  Full.remove_first T h (pre ++ e :: post) key = Some (pre ++ post).
Proof.
  intros Hpre He. induction Hpre as [|x pre Hx _ IH]; simpl.
  - by rewrite He.
  - by rewrite Hx, IH.
Qed.

Lemma entries_ahead_match pre e post key :
  Forall (λ x, Full.ref_eq T h x.1 key = false) pre →
  Full.ref_eq T h e.1 key = true →
  entries_ahead T h key (pre ++ e :: post) = pre.
Proof.
  intros Hpre He. induction Hpre as [|x pre Hx _ IH]; simpl.
  - by rewrite He.
  - by rewrite Hx, IH.
Qed.

Lemma entries_ahead_no_match d key :
  Forall (λ x, Full.ref_eq T h x.1 key = false) d → entries_ahead T h key d = d.
Proof.
  induction 1 as [|x d Hx _ IH]; simpl; [done|]. by rewrite Hx, IH.
Qed.

(** Where [d[key] = v] puts the value: in the place of the first live
    entry equal to the key, or at the end under the key itself. *)
Lemma replace_or_append_shape d key v :
  key ∈ h →
  ∃ pre k post,
    Full.replace_or_append T h d key v = pre ++ (k, v) :: post
    ∧ entries_ahead T h key (pre ++ (k, v) :: post) = pre
    ∧ k ∈ h ∧ Full.value_of T k = Full.value_of T key
    ∧ (d = pre ++ post ∧ post = [] ∧ k = key ∨ ∃ v0, d = pre ++ (k, v0) :: post).
Proof.
  intros Hkey.
  destruct (existsb (λ e, Full.ref_eq T h e.1 key) d) eqn:E.
  - destruct (first_match _ _ E) as (pre & [k v0] & post & -> & He & Hpre).
    exists pre, k, post. rewrite (replace_or_append_match _ _ _ _ _ Hpre He).
    simpl. pose proof He as He'. apply ref_eq_spec in He' as [Hk Hv].
    split_and!; [done| |done|done|right; by exists v0].
    by apply entries_ahead_match.
  - pose proof (no_match _ _ E) as Hd.
    exists d, key, []. rewrite (replace_or_append_no_match _ _ _ Hd).
    split_and!; [done| |done|done|left; by rewrite app_nil_r].
    apply entries_ahead_match; [done|]. by apply ref_eq_spec.
Qed.
End FullDictFacts.

(** ** The iterator *)
Section IterateFacts.
Variable behaviour : Full.Behaviour.
Variable self : positive.
Variable args : gmap string PyVal.
Implicit Types (w : Full.World) (st : Full.State)
  (es pre : list (obj * ObserverList.CallbackArgs)).

Lemma observers_at_set st a d a' :
  Full.observers_at (Full.set_observers st a d) a'
    = if decide (a = a') then d else Full.observers_at st a'.
Proof.
  unfold Full.observers_at, Full.set_observers. simpl.
  rewrite lookup_insert. by destruct (decide (a = a')).
Qed.

Lemma visit_quiet w ca :
  quiet_at behaviour self →
  Full.alive (Full.ObserverList.visit behaviour args w ca).1 = Full.alive w
  ∧ Full.observers_at (Full.state (Full.ObserverList.visit behaviour args w ca).1) self
    = Full.observers_at (Full.state w) self.
Proof.
  intros Hq. unfold Full.ObserverList.visit.
  destruct (merge_kwargs args (ObserverList.kwargs ca)) as [kw|e]; [|done].
  destruct (WeakMethod_call (Full.alive w) (ObserverList.callback ca)) as [c|];
    [|done].
  destruct (Hq c kw w) as [Ha Ho]. destruct (behaviour c kw w) as [w' r].
  simpl in *. split; [done|]. unfold Full.observers_at. by rewrite Ho.
Qed.

(** While the callbacks leave the list alone, the iterator walks the
    entries it found. *)
Lemma iterate_quiet es :
  quiet_at behaviour self →
  ∀ pre w,
    Full.observers_at (Full.state w) self = pre ++ es →
    Full.ObserverList.iterate behaviour self args
      ((pre ++ es).*1) (es.*1) (length pre) w
    = let '(w', (calls, r)) := walk behaviour args es w in
      (w', (calls, Full.Done r)).
Proof.
  intros Hq. induction es as [|e es IH]; intros pre w Hd; simpl; rewrite Hd.
  - rewrite !bool_decide_eq_true_2; [reflexivity|done|by rewrite length_fmap].
  - rewrite (bool_decide_eq_true_2 (length _ = length _)) by (by rewrite length_fmap).
    rewrite (bool_decide_eq_true_2 (_.*1 = _)) by done. simpl.
    change (list_fmap _ _ fst es) with (es.*1).
    rewrite list_lookup_middle by done.
    case_bool_decide as Hlive.
    + pose proof (visit_quiet w e.2 Hq) as [_ Hsame].
      destruct (Full.ObserverList.visit behaviour args w e.2)
        as [w' [calls [[]|x]]]; [|done].
      simpl in Hsame.
      specialize (IH (pre ++ [e]) w').
      rewrite <- app_assoc, length_app in IH. simpl in IH.
      rewrite Nat.add_1_r in IH. rewrite IH by (by rewrite Hsame, Hd).
      by destruct (walk behaviour args es w') as [w'' [calls' r]].
    + specialize (IH (pre ++ [e]) w).
      rewrite <- app_assoc, length_app in IH. simpl in IH.
      rewrite Nat.add_1_r in IH. by rewrite IH.
Qed.

(** No entry has a live key: the iterator ends at once, whatever the
    callbacks would do. *)
Lemma iterate_all_dead es :
  ∀ pre w,
    Forall (λ e, e.1 ∉ Full.alive w) es →
    Full.observers_at (Full.state w) self = pre ++ es →
    Full.ObserverList.iterate behaviour self args
      ((pre ++ es).*1) (es.*1) (length pre) w
    = (w, ([], Full.Done (Return ()))).
Proof.
  induction es as [|e es IH]; intros pre w Hdead Hd; simpl; rewrite Hd.
  - rewrite !bool_decide_eq_true_2; [reflexivity|done|by rewrite length_fmap].
  - apply Forall_cons in Hdead as [He Hdead].
    rewrite (bool_decide_eq_true_2 (length _ = length _)) by (by rewrite length_fmap).
    rewrite (bool_decide_eq_true_2 (_.*1 = _)) by done. simpl.
    rewrite list_lookup_middle by done.
    rewrite bool_decide_eq_false_2 by done.
    specialize (IH (pre ++ [e]) w Hdead).
    rewrite <- app_assoc, length_app in IH. simpl in IH.
    rewrite Nat.add_1_r in IH. by apply IH.
Qed.

Lemma notify_quiet w :
  quiet_at behaviour self →
  Full.ObserverList.notify behaviour self args w
  = let '(w', (calls, r)) :=
      walk behaviour args (Full.observers_at (Full.state w) self) w in
    (w', (calls, Full.Done r)).
Proof.
  intros Hq. unfold Full.ObserverList.notify.
  by apply (iterate_quiet _ Hq []).
Qed.

Lemma notify_all_dead w :
  Forall (λ e, e.1 ∉ Full.alive w) (Full.observers_at (Full.state w) self) →
  Full.ObserverList.notify behaviour self args w
  = (w, ([], Full.Done (Return ()))).
Proof.
  intros Hd. unfold Full.ObserverList.notify.
  by apply (iterate_all_dead _ []).
Qed.
End IterateFacts.

(** ** The observable and its shared lists *)
Section FullObservableFacts.
Implicit Types (st : Full.State) (event : Event).

Lemma get_observer_list_seen st event self :
  Full._observer_lists st !! event = Some self →
  Full.Observable._get_observer_list st event = (st, self).
Proof. intros H. unfold Full.Observable._get_observer_list. by rewrite H. Qed.

Lemma get_observer_list_unseen st event :
  Full._observer_lists st !! event = None →
  Full.Observable._get_observer_list st event
  = ({| Full.objects :=
          <[fresh (dom (Full.objects st)) := ObserverList.__init__]> (Full.objects st);
        Full._observer_lists :=
          <[event := fresh (dom (Full.objects st))]> (Full._observer_lists st) |},
     fresh (dom (Full.objects st))).
Proof. intros H. unfold Full.Observable._get_observer_list. by rewrite H. Qed.

(** The address [_get_observer_list] hands out is the one the
    dictionary holds afterwards, and the list is the event's. *)
Lemma get_observer_list_registrations st event :
  Full.observers_at (Full.Observable._get_observer_list st event).1
    (Full.Observable._get_observer_list st event).2
  = Full.registrations st event
  ∧ Full._observer_lists (Full.Observable._get_observer_list st event).1 !! event
    = Some (Full.Observable._get_observer_list st event).2.
Proof.
  unfold Full.registrations.
  destruct (Full._observer_lists st !! event) as [self|] eqn:E.
  - by rewrite (get_observer_list_seen _ _ _ E).
  - rewrite (get_observer_list_unseen _ _ E). simpl.
    unfold Full.observers_at. simpl. by rewrite !lookup_insert_eq.
Qed.
End FullObservableFacts.

(** ** C7: notifying an event nobody observes *)

(** C7.  When the event has no registration with a live owner, in
    particular none at all, [Observable.notify] calls nothing and
    returns normally, whatever the callbacks would do.  If the
    observable has seen the event, the world is left as it was.  If
    not, [_get_observer_list] makes an empty list object and enters its
    address under the event, and that is the only change. *)
Theorem notify_without_live_observers
    (behaviour : Full.Behaviour) (w : Full.World) (event : Event)
    (args : gmap string PyVal) :
  let st := Full.state w in
  Forall (λ e, e.1 ∉ Full.alive w) (Full.registrations st event) →
  (is_Some (Full._observer_lists st !! event) →
   Full.Observable.notify behaviour w event args
   = (w, ([], Full.Done (Return ()))))
  ∧ (Full._observer_lists st !! event = None →
     Full.Observable.notify behaviour w event args
     = ({| Full.alive := Full.alive w;
           Full.state :=
             {| Full.objects :=
                  <[fresh (dom (Full.objects st)) := ObserverList.__init__]>
                    (Full.objects st);
                Full._observer_lists :=
                  <[event := fresh (dom (Full.objects st))]>
                    (Full._observer_lists st) |} |},
        ([], Full.Done (Return ())))).
Proof.
  intros st Hdead. subst st. unfold Full.registrations in Hdead. split.
  - intros [self E]. rewrite E in Hdead.
    unfold Full.Observable.notify. rewrite (get_observer_list_seen _ _ _ E).
    destruct w as [h st]. by apply notify_all_dead.
  - intros E. unfold Full.Observable.notify.
    rewrite (get_observer_list_unseen _ _ E).
    apply notify_all_dead. unfold Full.observers_at. simpl.
    rewrite lookup_insert_eq. apply Forall_nil_2.
Qed.

(** A new observable is notified of "tick", with a callback that would
    raise if it were called: the event gets its list, at the first free
    address. *)
Lemma notify_without_live_observers_witness :
  Full.Observable.notify (λ _ _ w, (w, Raise (UserError 0)))
    {| Full.alive := Scenario.everything; Full.state := Full.Observable.__init__ |}
    "tick" {[ "count" := PyInt 5 ]}
  = ({| Full.alive := Scenario.everything;
        Full.state :=
          {| Full.objects := {[ 1%positive := ObserverList.__init__ ]};
             Full._observer_lists := {[ "tick" := 1%positive ]} |} |},
     ([], Full.Done (Return ()))).
Proof.
  apply (notify_without_live_observers (λ _ _ w, (w, Raise (UserError 0)))
           {| Full.alive := Scenario.everything;
              Full.state := Full.Observable.__init__ |}
           "tick" {[ "count" := PyInt 5 ]}).
  - apply Forall_nil_2.
  - reflexivity.
Defined.

(** ** C3: removing an unknown callback *)
Section FullRemove.
Variable T : Full.Traits.
Variable h : Heap.
Implicit Types (st : Full.State) (self : positive) (id : obj).

Lemma remove_observer_unhashable st self id :
  unhashable T id →
  Full.ObserverList.remove_observer T h st self id
  = (st, Raise (TypeError "unhashable type")).
Proof.
  intros [Hw Hv]. unfold Full.ObserverList.remove_observer, Full.contains.
  by rewrite Hw, Hv.
Qed.

Lemma remove_observer_not_filed st self id :
  ¬ unhashable T id →
  ¬ (Full.weakly_referenceable T id = true
     ∧ filed_under T h (Full.observers_at st self) id) →
  Full.ObserverList.remove_observer T h st self id
  = (st, Raise (RuntimeError "Unknown callback ID")).
Proof.
  intros Hu Hno. unfold Full.ObserverList.remove_observer, Full.contains.
  destruct (Full.weakly_referenceable T id) eqn:Hw; [|done].
  destruct (Full.value_of T id) as [v|] eqn:Hv; [|by destruct Hu].
  destruct (existsb _ _) eqn:E; [|done].
  destruct Hno. split; [done|]. by apply existsb_match.
Qed.

Lemma remove_observer_filed st self id :
  ¬ unhashable T id →
  Full.weakly_referenceable T id = true →
  filed_under T h (Full.observers_at st self) id →
  ∃ pre e post,
    Full.observers_at st self = pre ++ e :: post
    ∧ Full.ref_eq T h e.1 id = true
    ∧ Forall (λ x, Full.ref_eq T h x.1 id = false) pre
    ∧ Full.ObserverList.remove_observer T h st self id
      = (Full.set_observers st self (pre ++ post), Return ()).
Proof.
  intros Hu Hw Hfiled. apply existsb_match in Hfiled.
  destruct (first_match _ _ _ _ Hfiled) as (pre & e & post & Hd & He & Hpre).
  exists pre, e, post. split_and!; [done..|].
  unfold Full.ObserverList.remove_observer, Full.contains, Full.delitem, Full.probe.
  rewrite Hw.
  destruct (Full.value_of T id) as [v|] eqn:Hv; [|by destruct Hu].
  rewrite Hfiled, Hd. by rewrite (remove_first_match _ _ _ _ _ _ Hpre He).
Qed.
End FullRemove.

Lemma live_values_after (T : Full.Traits) (h : Heap)
    (pre post : list (obj * ObserverList.CallbackArgs))
    (e x : obj * ObserverList.CallbackArgs) :
  NoDup ((λ e, Full.value_of T e.1) <$> filter (λ e, e.1 ∈ h) (pre ++ e :: post)) →
  e.1 ∈ h → x ∈ post → x.1 ∈ h →
  Full.value_of T x.1 ≠ Full.value_of T e.1.
Proof.
  intros Hnd He Hx Hxl Heq.
  rewrite filter_app, filter_cons_True, fmap_app, fmap_cons in Hnd by done.
  apply NoDup_app in Hnd as (_ & _ & Hnd). apply NoDup_cons in Hnd as [Hnot _].
  apply Hnot. rewrite <- Heq. apply list_elem_of_fmap. exists x. split; [done|].
  by apply list_elem_of_filter.
Qed.

(** C3 (as amended).  [remove_observer] raises the unknown-callback
    error exactly when the identifier can be looked up (it is not an
    object that can be weakly referenced but not hashed) and no
    registration is filed under a live key equal to it; with a
    registration it returns normally, and a second removal then raises
    the error.  For an identifier that can be weakly referenced but not
    hashed it raises [TypeError] and changes nothing.  On an observable,
    removing from an event not seen before makes the event's empty list
    and raises the unknown-callback error. *)
Theorem remove_observer_unknown_callback_full
    (T : Full.Traits) (h : Heap) (st : Full.State) (self : positive) (id : obj) :
  let d := Full.observers_at st self in
  let registered :=
    Full.weakly_referenceable T id = true ∧ filed_under T h d id in
  ((Full.ObserverList.remove_observer T h st self id).2
     = Raise (RuntimeError "Unknown callback ID")
   ↔ ¬ unhashable T id ∧ ¬ registered)
  ∧ (unhashable T id →
     Full.ObserverList.remove_observer T h st self id
     = (st, Raise (TypeError "unhashable type")))
  ∧ (¬ unhashable T id → registered →
     (Full.ObserverList.remove_observer T h st self id).2 = Return ())
  ∧ (¬ unhashable T id → registered → tidy T h d →
     (Full.ObserverList.remove_observer T h
        (Full.ObserverList.remove_observer T h st self id).1 self id).2
     = Raise (RuntimeError "Unknown callback ID"))
  ∧ (∀ event, Full._observer_lists st !! event = None → ¬ unhashable T id →
       Full.Observable.remove_observer T h st event id
       = ((Full.Observable._get_observer_list st event).1,
          Raise (RuntimeError "Unknown callback ID"))).
Proof.
  intros d registered. subst d registered. split_and!.
  - split.
    + intros Hr. split.
      * intros Hu. rewrite remove_observer_unhashable in Hr by done. discriminate.
      * intros [Hw Hf].
        destruct (decide (Full.value_of T id = None)) as [Hv|Hv].
        { rewrite remove_observer_unhashable in Hr by done. discriminate. }
        destruct (remove_observer_filed T h st self id) as (? & ? & ? & _ & _ & _ & E);
          [by intros [_ ?]|done|done|].
        rewrite E in Hr. discriminate.
    + intros [Hu Hno]. by rewrite remove_observer_not_filed.
  - apply remove_observer_unhashable.
  - intros Hu [Hw Hf].
    destruct (remove_observer_filed T h st self id Hu Hw Hf)
      as (? & ? & ? & _ & _ & _ & E).
    by rewrite E.
  - intros Hu [Hw Hf] [Hnd _].
    destruct (remove_observer_filed T h st self id Hu Hw Hf)
      as (pre & e & post & Hd & He & Hpre & E).
    rewrite E. simpl. rewrite remove_observer_not_filed; [done|done|].
    rewrite observers_at_set, decide_True by done.
    intros [_ (x & Hx & Hxl & Hxv)].
    apply ref_eq_spec in He as [Hel Hev].
    apply elem_of_app in Hx as [Hx|Hx].
    + rewrite Forall_forall in Hpre. specialize (Hpre _ Hx).
      assert (Full.ref_eq T h x.1 id = true) by by apply ref_eq_spec.
      congruence.
    + rewrite Hd in Hnd.
      apply (live_values_after T h pre post e x Hnd Hel Hx Hxl). congruence.
  - intros event Hev Hu. unfold Full.Observable.remove_observer.
    pose proof (get_observer_list_registrations st event) as [Hreg _].
    destruct (Full.Observable._get_observer_list st event) as [st1 a].
    simpl in *. apply remove_observer_not_filed; [done|].
    intros [_ (x & Hx & _)]. rewrite Hreg in Hx.
    unfold Full.registrations in Hx. rewrite Hev in Hx. by apply elem_of_nil in Hx.
Qed.

(** [handler] is removed from "tick" and then removed again. *)
Lemma remove_observer_unknown_callback_full_witness :
  (Full.ObserverList.remove_observer FullScenario.traits FullScenario.everything
     FullScenario.ticking 1%positive Scenario.handler).2 = Return ()
  ∧ (Full.ObserverList.remove_observer FullScenario.traits FullScenario.everything
       (Full.ObserverList.remove_observer FullScenario.traits
          FullScenario.everything FullScenario.ticking 1%positive
          Scenario.handler).1 1%positive Scenario.handler).2
    = Raise (RuntimeError "Unknown callback ID").
Proof.
  destruct (remove_observer_unknown_callback_full FullScenario.traits
              FullScenario.everything FullScenario.ticking 1%positive
              Scenario.handler) as (_ & _ & Hok & Hagain & _).
  assert (¬ unhashable FullScenario.traits Scenario.handler) as Hu.
  { intros [_ Hv]. vm_compute in Hv. discriminate. }
  assert (Full.weakly_referenceable FullScenario.traits Scenario.handler = true
          ∧ filed_under FullScenario.traits FullScenario.everything
              (Full.observers_at FullScenario.ticking 1%positive) Scenario.handler)
    as Hreg.
  { split; [reflexivity|].
    exists (Scenario.handler,
            registration Scenario.handler Scenario.on_tick {[ "phase" := PyInt 1 ]}).
    split_and!; [vm_compute; apply list_elem_of_here|compute_done|reflexivity]. }
  split.
  - exact (Hok Hu Hreg).
  - apply (Hagain Hu Hreg). split.
    + vm_compute. apply NoDup_singleton.
    + vm_compute. apply Forall_singleton. reflexivity.
Defined.

(** The statement without the proviso fails: [point] can be weakly
    referenced but not hashed; it has no registration, and removing it
    raises [TypeError], not the unknown-callback error. *)
Lemma remove_observer_unhashable_identifier :
  ¬ ∀ (T : Full.Traits) (h : Heap) (st : Full.State) (self : positive) (id : obj),
      (Full.ObserverList.remove_observer T h st self id).2
        = Raise (RuntimeError "Unknown callback ID")
      ↔ ¬ (id ∈ h ∧ ∃ ca, (id, ca) ∈ Full.observers_at st self).
Proof.
  intros H.
  specialize (H FullScenario.traits FullScenario.everything
                Full.Observable.__init__ 1%positive FullScenario.point).
  destruct H as [_ H].
  assert ((Full.ObserverList.remove_observer FullScenario.traits
             FullScenario.everything Full.Observable.__init__ 1%positive
             FullScenario.point).2 = Raise (TypeError "unhashable type")) as E.
  { vm_compute. reflexivity. }
  rewrite E in H. discriminate H.
  intros [_ [ca Hin]]. vm_compute in Hin. by apply elem_of_nil in Hin.
Qed.

(** ** C6: the callback identifier *)
Section FullAdd.
Variable T : Full.Traits.
Variable h : Heap.
Implicit Types (st : Full.State) (self : positive) (owner func : obj).

(** What [add_observer] needs of a bound method. *)
Lemma add_observer_registrable st self owner func kw :
  Full.weakly_referenceable T owner = true →
  Full.weakly_referenceable T func = true →
  is_Some (Full.value_of T owner) →
  Full.ObserverList.add_observer T h st self (BoundMethod owner func) kw
  = (Full.set_observers st self
       (Full.replace_or_append T h (Full.observers_at st self) owner
          (registration owner func kw)),
     Return owner).
Proof.
  intros Ho Hf [v Hv].
  unfold Full.ObserverList.add_observer, Full.WeakMethod_new, Full.setitem, Full.probe.
  simpl. by rewrite Ho, Hf, Hv.
Qed.

Lemma add_observer_not_weakly_referenceable st self owner func kw :
  Full.weakly_referenceable T owner && Full.weakly_referenceable T func = false →
  Full.ObserverList.add_observer T h st self (BoundMethod owner func) kw
  = (st, Raise (TypeError "cannot create weak reference")).
Proof.
  intros H. unfold Full.ObserverList.add_observer, Full.WeakMethod_new. simpl.
  by rewrite H.
Qed.

Lemma add_observer_unhashable st self owner func kw :
  Full.weakly_referenceable T func = true →
  unhashable T owner →
  Full.ObserverList.add_observer T h st self (BoundMethod owner func) kw
  = (st, Raise (TypeError "unhashable type")).
Proof.
  intros Hf [Ho Hv].
  unfold Full.ObserverList.add_observer, Full.WeakMethod_new, Full.setitem, Full.probe.
  simpl. by rewrite Ho, Hf, Hv.
Qed.
End FullAdd.

(** C6 (as amended).  For a bound method whose owner can be hashed and
    weakly referenced, and whose function can be weakly referenced,
    [add_observer] returns the owner.  That value is accepted by
    [remove_observer] as long as the objects equal to the owner are
    alive as they were: the removal returns normally and takes out the
    registration [add_observer] made, so that the list is the one before
    the registration, less the registration this one replaced.  For an
    owner or function that cannot be weakly referenced, and for an owner
    that cannot be hashed, [add_observer] raises [TypeError] and stores
    nothing. *)
Theorem callback_id_is_owner_full
    (T : Full.Traits) (h h' : Heap) (st : Full.State) (self : positive)
    (owner func : obj) (kw : gmap string PyVal) :
  let out := Full.ObserverList.add_observer T h st self (BoundMethod owner func) kw in
  (Full.weakly_referenceable T owner && Full.weakly_referenceable T func = false →
   out = (st, Raise (TypeError "cannot create weak reference")))
  ∧ (Full.weakly_referenceable T func = true → unhashable T owner →
     out = (st, Raise (TypeError "unhashable type")))
  ∧ (Full.weakly_referenceable T owner = true →
     Full.weakly_referenceable T func = true →
     is_Some (Full.value_of T owner) →
     out.2 = Return owner
     ∧ (owner ∈ h →
        (∀ k, Full.value_of T k = Full.value_of T owner → k ∈ h ↔ k ∈ h') →
        ∃ pre k post,
          Full.observers_at out.1 self
            = pre ++ (k, registration owner func kw) :: post
          ∧ Full.ObserverList.remove_observer T h' out.1 self owner
            = (Full.set_observers out.1 self (pre ++ post), Return ())
          ∧ (Full.observers_at st self = pre ++ post
             ∨ ∃ v0, Full.observers_at st self = pre ++ (k, v0) :: post))).
Proof.
  intros out. subst out. split_and!.
  - apply add_observer_not_weakly_referenceable.
  - apply add_observer_unhashable.
  - intros Ho Hf Hv. rewrite add_observer_registrable by done.
    split; [done|]. intros Hlive Hsame. simpl.
    destruct (replace_or_append_shape T h (Full.observers_at st self) owner
                (registration owner func kw) Hlive)
      as (pre & k & post & Hshape & Hahead & Hk & Hkv & Hbefore).
    exists pre, k, post.
    assert (Full.observers_at
              (Full.set_observers st self
                 (Full.replace_or_append T h (Full.observers_at st self) owner
                    (registration owner func kw))) self
            = pre ++ (k, registration owner func kw) :: post) as Hnow.
    { by rewrite observers_at_set, decide_True. }
    assert (Forall (λ x, Full.ref_eq T h' x.1 owner = false) pre
            ∧ Full.ref_eq T h' k owner = true) as [Hpre' Hk'].
    { assert (Forall (λ x, Full.ref_eq T h x.1 owner = false) pre) as Hpre.
      { clear -Hahead. revert Hahead. generalize (k, registration owner func kw).
        intros e. induction pre as [|x pre IH]; simpl; [intros _; apply Forall_nil_2|].
        destruct (Full.ref_eq T h x.1 owner) eqn:E; [done|].
        intros [= Heq]. apply Forall_cons. split; [done|]. by apply IH. }
      split.
      - rewrite Forall_forall in Hpre |- *. intros x Hx. specialize (Hpre x Hx).
        destruct (Full.ref_eq T h' x.1 owner) eqn:E; [|done].
        apply ref_eq_spec in E as [Hl Hv']. apply Hsame in Hl; [|done].
        assert (Full.ref_eq T h x.1 owner = true) by by apply ref_eq_spec.
        congruence.
      - apply ref_eq_spec. split; [|done]. by apply Hsame. }
    split_and!; [done| |].
    + destruct Hv as [v Hv].
      unfold Full.ObserverList.remove_observer, Full.contains, Full.delitem, Full.probe.
      rewrite Ho, Hv, Hnow.
      assert (existsb (λ e, Full.ref_eq T h' e.1 owner)
                (pre ++ (k, registration owner func kw) :: post) = true) as ->.
      { apply existsb_match. exists (k, registration owner func kw).
        apply ref_eq_spec in Hk' as [? ?].
        split_and!; [|done..]. apply elem_of_app. right. apply list_elem_of_here. }
      by rewrite (remove_first_match T h' pre (k, registration owner func kw)
                    post owner Hpre' Hk').
    + destruct Hbefore as [(Hd & -> & _)|[v0 Hd]].
      * left. by rewrite app_nil_r in Hd |- *.
      * right. by exists v0.
Qed.

(** [handler.on_tick] joins "tick", where [logger.on_log] observes, and
    is removed by the value [add_observer] returned. *)
Lemma callback_id_is_owner_full_witness :
  let out :=
    Full.ObserverList.add_observer FullScenario.traits FullScenario.everything
      FullScenario.logged 1%positive
      (BoundMethod Scenario.handler Scenario.on_tick) ∅ in
  out.2 = Return Scenario.handler
  ∧ ∃ pre k post,
      Full.observers_at out.1 1%positive
        = pre ++ (k, registration Scenario.handler Scenario.on_tick ∅) :: post
      ∧ Full.ObserverList.remove_observer FullScenario.traits
          FullScenario.everything out.1 1%positive Scenario.handler
        = (Full.set_observers out.1 1%positive (pre ++ post), Return ())
      ∧ (Full.observers_at FullScenario.logged 1%positive = pre ++ post
         ∨ ∃ v0, Full.observers_at FullScenario.logged 1%positive
                 = pre ++ (k, v0) :: post).
Proof.
  intros out.
  destruct (callback_id_is_owner_full FullScenario.traits FullScenario.everything
              FullScenario.everything FullScenario.logged 1%positive
              Scenario.handler Scenario.on_tick ∅) as (_ & _ & H).
  destruct H as [Hret Hrem]; [reflexivity|reflexivity|by eexists|].
  split; [exact Hret|]. apply Hrem; [compute_done|done].
Defined.

(** The statement for every bound method fails: a method of [point],
    which cannot be hashed, is a bound method, and registering it
    raises [TypeError]. *)
Lemma add_observer_unhashable_owner :
  ¬ ∀ (T : Full.Traits) (h : Heap) (st : Full.State) (self : positive)
      (owner func : obj) (kw : gmap string PyVal),
      (Full.ObserverList.add_observer T h st self (BoundMethod owner func) kw).2
      = Return owner.
Proof.
  intros H.
  specialize (H FullScenario.traits FullScenario.everything
                Full.Observable.__init__ 1%positive
                FullScenario.point FullScenario.on_move ∅).
  vm_compute in H. discriminate H.
Qed.

(** ** The walk over an unchanging dictionary *)
Section WalkFacts.
Variable behaviour : Full.Behaviour.
Variable args : gmap string PyVal.
Implicit Types (w : Full.World) (es : list (obj * ObserverList.CallbackArgs)).


(** What one turn calls. *)
Lemma visit_calls w ca c :
  c ∈ (Full.ObserverList.visit behaviour args w ca).2.1 →
  wm_obj (ObserverList.callback ca) ∈ Full.alive w
  ∧ wm_func (ObserverList.callback ca) ∈ Full.alive w
  ∧ args ##ₘ ObserverList.kwargs ca
  ∧ c = delivery args ca.
Proof.
  unfold Full.ObserverList.visit, merge_kwargs.
  case_bool_decide as Hdisj; simpl; [|by intros ?%elem_of_nil].
  destruct (WeakMethod_call (Full.alive w) (ObserverList.callback ca)) as [c0|] eqn:Hc;
    [|by intros ?%elem_of_nil].
  pose proof (WeakMethod_call_Some_alive _ _ _ Hc) as [Ho Hf].
  apply WeakMethod_call_Some in Hc. subst c0.
  destruct (behaviour _ _ w) as [w' r]. simpl.
  intros ->%list_elem_of_singleton. done.
Qed.

(** While the callbacks destroy nothing, every call of the walk is the
    delivery of a live entry. *)
Lemma walk_calls es w c :
  (∀ c kw w, Full.alive (behaviour c kw w).1 = Full.alive w) →
  c ∈ (walk behaviour args es w).2.1 →
  ∃ e, e ∈ es ∧ e.1 ∈ Full.alive w
       ∧ wm_obj (ObserverList.callback e.2) ∈ Full.alive w
       ∧ wm_func (ObserverList.callback e.2) ∈ Full.alive w
       ∧ args ##ₘ ObserverList.kwargs e.2
       ∧ c = delivery args e.2.
Proof.
  intros Hsteady. revert w. induction es as [|e es IH]; intros w; simpl.
  - by intros ?%elem_of_nil.
  - assert (∀ w', Full.alive w' = Full.alive w →
        c ∈ (walk behaviour args es w').2.1 →
        ∃ e0, e0 ∈ e :: es ∧ e0.1 ∈ Full.alive w
              ∧ wm_obj (ObserverList.callback e0.2) ∈ Full.alive w
              ∧ wm_func (ObserverList.callback e0.2) ∈ Full.alive w
              ∧ args ##ₘ ObserverList.kwargs e0.2
              ∧ c = delivery args e0.2) as Hrest.
    { intros w' Ha H. destruct (IH _ H) as (e0 & He0 & Hr).
      exists e0. rewrite Ha in Hr. split; [apply elem_of_cons; by right|done]. }
    case_bool_decide as Hlive; [|by apply Hrest].
    pose proof (visit_calls w e.2 c) as Hhere.
    assert (Full.alive (Full.ObserverList.visit behaviour args w e.2).1
            = Full.alive w) as Ha.
    { unfold Full.ObserverList.visit.
      destruct (merge_kwargs args (ObserverList.kwargs e.2)) as [kw|x]; [|done].
      destruct (WeakMethod_call _ _) as [c0|]; [|done].
      specialize (Hsteady c0 kw w). by destruct (behaviour c0 kw w). }
    destruct (Full.ObserverList.visit behaviour args w e.2)
      as [w' [calls [[]|x]]]; simpl in *.
    + destruct (walk behaviour args es w') as [w'' [calls' r]] eqn:E.
      simpl. intros [Hc|Hc]%elem_of_app.
      * exists e. split; [apply elem_of_cons; by left|]. split; [done|]. by apply Hhere.
      * apply (Hrest w' Ha). by rewrite E.
    + intros Hc. exists e. split; [apply elem_of_cons; by left|].
      split; [done|]. by apply Hhere.
Qed.

End WalkFacts.

(** ** Registration keeps the dictionary tidy *)
Section TidyFacts.
Variable T : Full.Traits.
Variable h : Heap.
Implicit Types (d : list (obj * ObserverList.CallbackArgs)) (key : obj)
  (v : ObserverList.CallbackArgs).

Let live_values d : list (option positive) :=
  (λ e, Full.value_of T e.1) <$> filter (λ e, e.1 ∈ h) d.

Lemma live_values_cons e d :
  live_values (e :: d)
  = if bool_decide (e.1 ∈ h) then Full.value_of T e.1 :: live_values d
    else live_values d.
Proof.
  subst live_values. simpl. rewrite filter_cons.
  destruct (decide (e.1 ∈ h)) as [Hl|Hl].
  - by rewrite bool_decide_eq_true_2.
  - by rewrite bool_decide_eq_false_2.
Qed.

Lemma live_values_replace_member d key v x :
  x ∈ live_values (Full.replace_or_append T h d key v) →
  x ∈ live_values d ∨ x = Full.value_of T key.
Proof.
  induction d as [|e d IH]; simpl.
  - rewrite live_values_cons. simpl. case_bool_decide.
    + intros [->|H']%elem_of_cons; [by right|by left].
    + by left.
  - destruct (Full.ref_eq T h e.1 key) eqn:E.
    + rewrite !live_values_cons. simpl. by left.
    + rewrite !live_values_cons. case_bool_decide.
      * intros [->|H']%elem_of_cons.
        -- left. apply elem_of_cons. by left.
        -- destruct (IH H') as [?|?]; [left; apply elem_of_cons; by right|by right].
      * apply IH.
Qed.

Lemma tidy_replace_or_append d key v :
  key ∈ h →
  Full.value_of T (wm_obj (ObserverList.callback v)) = Full.value_of T key →
  tidy T h d → tidy T h (Full.replace_or_append T h d key v).
Proof.
  intros Hkey Hv [Hnd Hall]. split.
  - fold (live_values d) in Hnd.
    fold (live_values (Full.replace_or_append T h d key v)).
    clear Hall. induction d as [|e d IH]; simpl.
    + rewrite live_values_cons. simpl. rewrite bool_decide_eq_true_2 by done.
      apply NoDup_singleton.
    + destruct (Full.ref_eq T h e.1 key) eqn:E.
      * by rewrite live_values_cons in Hnd |- *.
      * rewrite live_values_cons in Hnd |- *. case_bool_decide as Hl.
        -- apply NoDup_cons in Hnd as [Hnot Hnd]. apply NoDup_cons. split; [|by apply IH].
           intros [Hin|Heq]%live_values_replace_member; [done|].
           assert (Full.ref_eq T h e.1 key = true) by by apply ref_eq_spec.
           congruence.
        -- by apply IH.
  - clear Hnd. induction Hall as [|e d He Hd IH]; simpl.
    + by apply Forall_singleton.
    + destruct (Full.ref_eq T h e.1 key) eqn:E.
      * apply Forall_cons. split; [|done]. simpl.
        apply ref_eq_spec in E as [_ E]. congruence.
      * by apply Forall_cons.
Qed.

Lemma tidy_remove pre e post :
  tidy T h (pre ++ e :: post) → tidy T h (pre ++ post).
Proof.
  intros [Hnd Hall]. split.
  - revert Hnd. rewrite !filter_app, !fmap_app, filter_cons.
    destruct (decide (e.1 ∈ h)); [|done].
    rewrite fmap_cons. intros Hnd.
    apply NoDup_app in Hnd as (H1 & H2 & H3). apply NoDup_cons in H3 as [_ H3].
    apply NoDup_app. split_and!; [done| |done].
    intros x Hx Hx'. apply (H2 x Hx). apply elem_of_cons. by right.
  - apply Forall_app in Hall as [H1 H2]. apply Forall_cons in H2 as [_ H2].
    by apply Forall_app.
Qed.
End TidyFacts.

(** ** C1: registration followed by notification *)

Lemma observable_add_observer_registrable (T : Full.Traits) (h : Heap)
    (st : Full.State) (event : Event) (owner func : obj) (kw : gmap string PyVal) :
  Full.weakly_referenceable T owner = true →
  Full.weakly_referenceable T func = true →
  is_Some (Full.value_of T owner) →
  ∃ st0 self,
    Full.Observable._get_observer_list st event = (st0, self)
    ∧ Full._observer_lists st0 !! event = Some self
    ∧ Full.observers_at st0 self = Full.registrations st event
    ∧ Full.Observable.add_observer T h st event (BoundMethod owner func) kw
      = (Full.set_observers st0 self
           (Full.replace_or_append T h (Full.registrations st event) owner
              (registration owner func kw)),
         Return owner).
Proof.
  intros Ho Hf Hv.
  pose proof (get_observer_list_registrations st event) as [Hreg Hev].
  unfold Full.Observable.add_observer.
  destruct (Full.Observable._get_observer_list st event) as [st0 self].
  simpl in *. exists st0, self. split_and!; [done..|].
  by rewrite add_observer_registrable, Hreg.
Qed.

Lemma observable_notify_quiet (behaviour : Full.Behaviour) (w : Full.World)
    (event : Event) (args : gmap string PyVal) (self : positive) :
  Full._observer_lists (Full.state w) !! event = Some self →
  quiet_at behaviour self →
  Full.Observable.notify behaviour w event args
  = let '(w', (calls, r)) :=
      walk behaviour args (Full.registrations (Full.state w) event) w in
    (w', (calls, Full.Done r)).
Proof.
  intros Hev Hq. unfold Full.Observable.notify, Full.registrations.
  rewrite (get_observer_list_seen _ _ _ Hev), Hev. destruct w as [h st].
  by apply notify_quiet.
Qed.



(** Why the callbacks must leave the list alone: [logger.on_log],
    registered first, unregisters [logger] and returns.  The iterator
    finds the dictionary smaller, [notify] raises [RuntimeError], and
    [handler.on_tick], alive and registered, has not been called. *)
Lemma notify_after_unregistering_callback :
  let cb := BoundMethod Scenario.handler Scenario.on_tick in
  let s1 := (Full.Observable.add_observer FullScenario.traits
               FullScenario.everything FullScenario.logged "tick" cb
               {[ "phase" := PyInt 1 ]}).1 in
  let behaviour :=
    FullScenario.unregistering (BoundMethod Scenario.logger Scenario.on_log)
      1%positive Scenario.logger in
  (Full.Observable.notify behaviour
     {| Full.alive := FullScenario.everything; Full.state := s1 |} "tick"
     {[ "count" := PyInt 5 ]}).2
  = ([ {| callee := BoundMethod Scenario.logger Scenario.on_log;
          call_kwargs := {[ "count" := PyInt 5 ]} ∪ ∅ |} ],
     Full.Done (Raise (RuntimeError "dictionary changed size during iteration"))).
Proof. vm_compute. reflexivity. Qed.

(** Why the callbacks must destroy nothing: [logger.on_log], registered
    first, drops the last reference to [handler] and returns.  By the
    time the iterator reaches the registration of [handler] its key is
    dead; it is passed over and [notify] returns normally. *)
Lemma notify_after_destroying_callback :
  let cb := BoundMethod Scenario.handler Scenario.on_tick in
  let s1 := (Full.Observable.add_observer FullScenario.traits
               FullScenario.everything FullScenario.logged "tick" cb
               {[ "phase" := PyInt 1 ]}).1 in
  let behaviour :=
    FullScenario.destroying (BoundMethod Scenario.logger Scenario.on_log)
      Scenario.handler in
  (Full.Observable.notify behaviour
     {| Full.alive := FullScenario.everything; Full.state := s1 |} "tick"
     {[ "count" := PyInt 5 ]}).2
  = ([ {| callee := BoundMethod Scenario.logger Scenario.on_log;
          call_kwargs := {[ "count" := PyInt 5 ]} ∪ ∅ |} ],
     Full.Done (Return ())).
Proof. vm_compute. reflexivity. Qed.

(** ** The two descriptions agree

    For ordinary owners the dictionary of the mechanism in full is the
    one described first, and for callbacks that leave the state alone
    the iterator makes the calls of the loop described first. *)
Section Agreement.
Variable h : Heap.
Implicit Types (d : list (obj * ObserverList.CallbackArgs)) (st : Full.State).

Lemma ref_eq_ordinary k key :
  Full.ref_eq Full.ordinary h k key = ref_matches h k key.
Proof.
  unfold Full.ref_eq, ref_matches. simpl. f_equal.
  apply bool_decide_ext. split; [by intros [= ->]|by intros ->].
Qed.

Lemma replace_or_append_ordinary d key v :
  Full.replace_or_append Full.ordinary h d key v = wkd_setitem h d key v.
Proof.
  induction d as [|e d IH]; simpl; [done|].
  by rewrite ref_eq_ordinary, IH.
Qed.

Lemma contains_ordinary d key :
  Full.contains Full.ordinary h d key = Return (wkd_contains h d key).
Proof.
  unfold Full.contains, wkd_contains. simpl. f_equal.
  induction d as [|e d IH]; simpl; [done|]. by rewrite ref_eq_ordinary, IH.
Qed.

Lemma delitem_ordinary d key :
  Full.delitem Full.ordinary h d key = wkd_delitem h d key.
Proof.
  unfold Full.delitem. simpl.
  induction d as [|e d IH]; simpl; [done|].
  rewrite ref_eq_ordinary. destruct (ref_matches h e.1 key); [done|].
  destruct (Full.remove_first Full.ordinary h d key) as [d'|];
    simpl in *; by rewrite <- IH.
Qed.

Lemma add_observer_ordinary st self cb kw :
  Full.ObserverList.add_observer Full.ordinary h st self cb kw
  = match ObserverList.add_observer h
            {| ObserverList._observers := Full.observers_at st self |} cb kw with
    | (ol, Return id) =>
        (Full.set_observers st self (ObserverList._observers ol), Return id)
    | (_, Raise e) => (st, Raise e)
    end.
Proof.
  unfold Full.ObserverList.add_observer, ObserverList.add_observer.
  destruct cb as [o f|o|f]; simpl; [|done..].
  unfold Full.setitem. simpl. by rewrite replace_or_append_ordinary.
Qed.

Lemma remove_observer_ordinary st self id :
  Full.ObserverList.remove_observer Full.ordinary h st self id
  = match ObserverList.remove_observer h
            {| ObserverList._observers := Full.observers_at st self |} id with
    | (ol, Return _) =>
        (Full.set_observers st self (ObserverList._observers ol), Return ())
    | (_, Raise e) => (st, Raise e)
    end.
Proof.
  unfold Full.ObserverList.remove_observer, ObserverList.remove_observer.
  rewrite contains_ordinary, delitem_ordinary. simpl.
  destruct (wkd_contains h (Full.observers_at st self) id); simpl; [|done].
  by destruct (wkd_delitem h (Full.observers_at st self) id).
Qed.



End Agreement.

(** * The mechanism in full: further properties *)

Lemma contains_true_delitem (T : Full.Traits) (h : Heap)
    (d : list (obj * ObserverList.CallbackArgs)) (id : obj) :
  Full.contains T h d id = Return true →
  ∃ d', Full.delitem T h d id = Return d'.
Proof.
  unfold Full.contains, Full.delitem, Full.probe.
  destruct (Full.weakly_referenceable T id); [|done].
  destruct (Full.value_of T id); [|done].
  intros [= E]. destruct (first_match _ _ _ _ E) as (pre & e & post & -> & He & Hpre).
  rewrite (remove_first_match _ _ _ _ _ _ Hpre He). by eexists.
Qed.

(** X9.  When [Observable.remove_observer] raises, the exception is the
    unknown-callback [RuntimeError], or the [TypeError] of an identifier
    that cannot be hashed; the [del] statement never fails.  Nothing has
    changed then but the lazy creation of the event's list. *)
Theorem remove_observer_failure_full
    (T : Full.Traits) (h : Heap) (st : Full.State) (event : Event) (id : obj)
    (e : PyExn) :
  (Full.Observable.remove_observer T h st event id).2 = Raise e →
  (e = RuntimeError "Unknown callback ID" ∨ e = TypeError "unhashable type")
  ∧ (Full.Observable.remove_observer T h st event id).1
    = (Full.Observable._get_observer_list st event).1.
Proof.
  unfold Full.Observable.remove_observer.
  destruct (Full.Observable._get_observer_list st event) as [st1 self]. simpl.
  unfold Full.ObserverList.remove_observer.
  destruct (Full.contains T h (Full.observers_at st1 self) id) as [[]|x] eqn:E.
  - destruct (contains_true_delitem _ _ _ _ E) as [d' ->]. done.
  - intros [= <-]. auto.
  - intros [= <-]. split; [|done]. right.
    unfold Full.contains in E.
    destruct (Full.weakly_referenceable T id); [|done].
    destruct (Full.value_of T id); [done|]. by injection E as <-.
Qed.

(** [point], which cannot be hashed, is removed from "tick". *)
Lemma remove_observer_failure_full_witness :
  (TypeError "unhashable type" = RuntimeError "Unknown callback ID"
   ∨ TypeError "unhashable type" = TypeError "unhashable type")
  ∧ (Full.Observable.remove_observer FullScenario.traits FullScenario.everything
       FullScenario.ticking "tick" FullScenario.point).1
    = (Full.Observable._get_observer_list FullScenario.ticking "tick").1.
Proof.
  apply (remove_observer_failure_full FullScenario.traits FullScenario.everything
           FullScenario.ticking "tick" FullScenario.point).
  vm_compute. reflexivity.
Defined.

(** X7.  [Observable.add_observer] with a bound method it accepts keeps
    the order of the event's registrations.  If a registration is filed
    under a live key equal to the owner, the first such registration
    gets the new callback and keywords and keeps its key and its place;
    otherwise the new registration goes to the end, under the owner.
    All other registrations are as they were. *)
Theorem add_observer_keeps_order_full
    (T : Full.Traits) (h : Heap) (st : Full.State) (event : Event)
    (owner func : obj) (kw : gmap string PyVal) :
  Full.weakly_referenceable T owner = true →
  Full.weakly_referenceable T func = true →
  is_Some (Full.value_of T owner) →
  owner ∈ h →
  let old := Full.registrations st event in
  let new := Full.registrations
               (Full.Observable.add_observer T h st event
                  (BoundMethod owner func) kw).1 event in
  (¬ filed_under T h old owner ∧ new = old ++ [(owner, registration owner func kw)])
  ∨ ∃ pre k v0 post,
      old = pre ++ (k, v0) :: post
      ∧ new = pre ++ (k, registration owner func kw) :: post
      ∧ k ∈ h ∧ Full.value_of T k = Full.value_of T owner
      ∧ ¬ filed_under T h pre owner.
Proof.
  intros Ho Hf Hv Hlive old new. subst old new.
  destruct (observable_add_observer_registrable T h st event owner func kw Ho Hf Hv)
    as (st0 & self & _ & Hev & _ & ->).
  assert (∀ X, Full.registrations (Full.set_observers st0 self X) event = X)
    as Hnew.
  { intros X. unfold Full.registrations. simpl. rewrite Hev.
    by rewrite observers_at_set, decide_True. }
  simpl. rewrite Hnew.
  destruct (existsb (λ e, Full.ref_eq T h e.1 owner) (Full.registrations st event))
    eqn:E.
  - right. destruct (first_match _ _ _ _ E) as (pre & [k v0] & post & Hd & He & Hpre).
    exists pre, k, v0, post. rewrite Hd.
    rewrite (replace_or_append_match _ _ _ _ _ _ _ Hpre He). simpl.
    apply ref_eq_spec in He as [Hk Hkv]. split_and!; [done..|].
    intros (x & Hx & Hxl & Hxv). rewrite Forall_forall in Hpre.
    specialize (Hpre x Hx).
    assert (Full.ref_eq T h x.1 owner = true) by by apply ref_eq_spec.
    congruence.
  - left. split.
    + intros Hfiled. apply existsb_match in Hfiled. congruence.
    + by rewrite (replace_or_append_no_match _ _ _ _ _ (no_match _ _ _ _ E)).
Qed.

(** [twin_b] registers on "tick" where its equal [twin_a] is registered:
    the registration of [twin_a] is the one that changes. *)
Lemma add_observer_keeps_order_full_witness :
  let st := (Full.Observable.add_observer FullScenario.traits
               FullScenario.everything Full.Observable.__init__ "tick"
               (BoundMethod FullScenario.twin_a FullScenario.on_move) ∅).1 in
  let old := Full.registrations st "tick" in
  let new := Full.registrations
               (Full.Observable.add_observer FullScenario.traits
                  FullScenario.everything st "tick"
                  (BoundMethod FullScenario.twin_b FullScenario.on_move) ∅).1
               "tick" in
  (¬ filed_under FullScenario.traits FullScenario.everything old FullScenario.twin_b
   ∧ new = old ++ [(FullScenario.twin_b,
                    registration FullScenario.twin_b FullScenario.on_move ∅)])
  ∨ ∃ pre k v0 post,
      old = pre ++ (k, v0) :: post
      ∧ new = pre ++ (k, registration FullScenario.twin_b FullScenario.on_move ∅)
                :: post
      ∧ k ∈ FullScenario.everything
      ∧ Full.value_of FullScenario.traits k
        = Full.value_of FullScenario.traits FullScenario.twin_b
      ∧ ¬ filed_under FullScenario.traits FullScenario.everything pre
            FullScenario.twin_b.
Proof.
  intros st.
  apply (add_observer_keeps_order_full FullScenario.traits
           FullScenario.everything st "tick"
           FullScenario.twin_b FullScenario.on_move ∅).
  - reflexivity.
  - reflexivity.
  - by eexists.
  - compute_done.
Defined.

(** In that run the registration of [twin_a] is the one that changes. *)
Example twin_registration_replaces :
  let st := (Full.Observable.add_observer FullScenario.traits
               FullScenario.everything Full.Observable.__init__ "tick"
               (BoundMethod FullScenario.twin_a FullScenario.on_move) ∅).1 in
  Full.registrations
    (Full.Observable.add_observer FullScenario.traits FullScenario.everything
       st "tick" (BoundMethod FullScenario.twin_b FullScenario.on_move) ∅).1 "tick"
  = [ (FullScenario.twin_a,
       registration FullScenario.twin_b FullScenario.on_move ∅) ].
Proof. vm_compute. reflexivity. Qed.

(** X10.  Registering a bound method whose owner equals no live
    registered key, and removing it with the identifier [add_observer]
    returned, undoes the registration: the removal returns normally, the
    event has the registrations it had, and the observable knows the
    events it knew and this one. *)
Theorem add_then_remove_restores_full
    (T : Full.Traits) (h : Heap) (st : Full.State) (event : Event)
    (owner func : obj) (kw : gmap string PyVal) :
  Full.weakly_referenceable T owner = true →
  Full.weakly_referenceable T func = true →
  is_Some (Full.value_of T owner) →
  owner ∈ h →
  ¬ filed_under T h (Full.registrations st event) owner →
  let s1 := (Full.Observable.add_observer T h st event
               (BoundMethod owner func) kw).1 in
  let out := Full.Observable.remove_observer T h s1 event owner in
  out.2 = Return ()
  ∧ Full.registrations out.1 event = Full.registrations st event
  ∧ Full._observer_lists out.1
    = Full._observer_lists (Full.Observable._get_observer_list st event).1.
Proof.
  intros Ho Hf Hv Hlive Hnew s1 out. subst s1 out.
  destruct (observable_add_observer_registrable T h st event owner func kw Ho Hf Hv)
    as (st0 & self & Hget & Hev & Hobs & ->).
  rewrite Hget. simpl.
  assert (Forall (λ x, Full.ref_eq T h x.1 owner = false)
            (Full.registrations st event)) as Hno.
  { apply no_match. destruct (existsb _ _) eqn:E; [|done].
    destruct Hnew. by apply existsb_match. }
  rewrite (replace_or_append_no_match _ _ _ _ _ Hno).
  set (d := Full.registrations st event) in *.
  set (s1 := Full.set_observers st0 self _).
  assert (Full._observer_lists s1 !! event = Some self) as Hev1 by done.
  unfold Full.Observable.remove_observer.
  rewrite (get_observer_list_seen _ _ _ Hev1).
  assert (Full.ref_eq T h (owner, registration owner func kw).1 owner = true) as He.
  { by apply ref_eq_spec. }
  assert (Full.observers_at s1 self = d ++ [(owner, registration owner func kw)])
    as Hnow.
  { subst s1. by rewrite observers_at_set, decide_True. }
  destruct Hv as [v Hv].
  unfold Full.ObserverList.remove_observer, Full.contains, Full.delitem, Full.probe.
  rewrite Ho, Hv, Hnow.
  assert (existsb (λ e, Full.ref_eq T h e.1 owner)
            (d ++ [(owner, registration owner func kw)]) = true) as ->.
  { apply existsb_match. exists (owner, registration owner func kw).
    split_and!; [|done..]. apply elem_of_app. right. apply list_elem_of_here. }
  rewrite (remove_first_match T h d _ [] owner Hno He). simpl.
  split_and!; [done| |done].
  unfold Full.registrations at 1. simpl. rewrite Hev.
  by rewrite observers_at_set, decide_True, app_nil_r.
Qed.

(** [handler] joins and leaves "tick", where [logger] observes. *)
Lemma add_then_remove_restores_full_witness :
  let s1 := (Full.Observable.add_observer FullScenario.traits
               FullScenario.everything FullScenario.logged "tick"
               (BoundMethod Scenario.handler Scenario.on_tick) ∅).1 in
  let out := Full.Observable.remove_observer FullScenario.traits
               FullScenario.everything s1 "tick" Scenario.handler in
  out.2 = Return ()
  ∧ Full.registrations out.1 "tick" = Full.registrations FullScenario.logged "tick"
  ∧ Full._observer_lists out.1
    = Full._observer_lists
        (Full.Observable._get_observer_list FullScenario.logged "tick").1.
Proof.
  apply (add_then_remove_restores_full FullScenario.traits FullScenario.everything
           FullScenario.logged "tick" Scenario.handler Scenario.on_tick ∅).
  - reflexivity.
  - reflexivity.
  - by eexists.
  - compute_done.
  - intros (x & Hx & _ & Hxv). vm_compute in Hx.
    apply list_elem_of_singleton in Hx as ->. vm_compute in Hxv. discriminate.
Defined.

(** X1.  Registration and removal keep an event's dictionary tidy: no
    two live keys are equal, and every registration is filed under a key
    equal to the owner of its callback.  This holds whether the call
    returns or raises. *)
Theorem registrations_stay_tidy
    (T : Full.Traits) (h : Heap) (st : Full.State) (event : Event) :
  tidy T h (Full.registrations st event) →
  (∀ cb kw,
     (∀ o f, cb = BoundMethod o f → o ∈ h) →
     tidy T h (Full.registrations
                 (Full.Observable.add_observer T h st event cb kw).1 event))
  ∧ (∀ id,
       tidy T h (Full.registrations
                   (Full.Observable.remove_observer T h st event id).1 event)).
Proof.
  intros Htidy.
  pose proof (get_observer_list_registrations st event) as [Hreg Hev].
  split.
  - intros cb kw Hcb. unfold Full.Observable.add_observer.
    destruct (Full.Observable._get_observer_list st event) as [st0 self].
    simpl in *.
    assert (Full.registrations st0 event = Full.registrations st event) as Hsame.
    { unfold Full.registrations at 1. by rewrite Hev. }
    unfold Full.ObserverList.add_observer.
    destruct (getattr_self cb) as [id|e] eqn:Hself; [|simpl; by rewrite Hsame].
    destruct (Full.WeakMethod_new T cb) as [w|e] eqn:Hw; [|simpl; by rewrite Hsame].
    destruct cb as [o f| |]; try done. simpl in Hself, Hw. injection Hself as <-.
    destruct (Full.weakly_referenceable T o && Full.weakly_referenceable T f);
      [|done]. injection Hw as <-.
    unfold Full.setitem.
    destruct (Full.probe T o) as [[]|e]; [|simpl; by rewrite Hsame].
    simpl. unfold Full.registrations. simpl. rewrite Hev.
    rewrite observers_at_set, decide_True by done. rewrite Hreg.
    apply tidy_replace_or_append; [by apply (Hcb o f)|done|done].
  - intros id. unfold Full.Observable.remove_observer.
    destruct (Full.Observable._get_observer_list st event) as [st0 self].
    simpl in *.
    assert (Full.registrations st0 event = Full.registrations st event) as Hsame.
    { unfold Full.registrations at 1. by rewrite Hev. }
    unfold Full.ObserverList.remove_observer.
    destruct (Full.contains T h (Full.observers_at st0 self) id) as [[]|e] eqn:E;
      [|simpl; by rewrite Hsame..].
    unfold Full.delitem.
    destruct (Full.probe T id) as [[]|e]; [|simpl; by rewrite Hsame].
    unfold Full.contains in E.
    destruct (Full.weakly_referenceable T id); [|done].
    destruct (Full.value_of T id); [|done]. injection E as E.
    destruct (first_match _ _ _ _ E) as (pre & x & post & Hd & Hx & Hpre).
    rewrite Hd, (remove_first_match _ _ _ _ _ _ Hpre Hx). simpl.
    unfold Full.registrations. simpl. rewrite Hev.
    rewrite observers_at_set, decide_True by done.
    apply (tidy_remove T h pre x post). by rewrite <- Hd, Hreg.
Qed.

Lemma registrations_stay_tidy_witness :
  tidy FullScenario.traits FullScenario.everything
    (Full.registrations
       (Full.Observable.add_observer FullScenario.traits FullScenario.everything
          FullScenario.logged "tick"
          (BoundMethod FullScenario.twin_b FullScenario.on_move) ∅).1 "tick").
Proof.
  apply (registrations_stay_tidy FullScenario.traits FullScenario.everything
           FullScenario.logged "tick").
  - split.
    + vm_compute. apply NoDup_singleton.
    + vm_compute. apply Forall_singleton. reflexivity.
  - intros o f [= <- _]. compute_done.
Defined.

(** ** The events an observable knows *)

Lemma list_methods_keep_events (T : Full.Traits) (h : Heap) (st : Full.State)
    (self : positive) :
  (∀ cb kw, Full._observer_lists (Full.ObserverList.add_observer T h st self cb kw).1
            = Full._observer_lists st)
  ∧ (∀ id, Full._observer_lists (Full.ObserverList.remove_observer T h st self id).1
           = Full._observer_lists st).
Proof.
  split.
  - intros cb kw. unfold Full.ObserverList.add_observer.
    destruct (getattr_self cb); [|done].
    destruct (Full.WeakMethod_new T cb); [|done].
    by destruct (Full.setitem T h _ _ _).
  - intros id. unfold Full.ObserverList.remove_observer.
    destruct (Full.contains T h _ id) as [[]|]; [|done..].
    by destruct (Full.delitem T h _ id).
Qed.

Lemma get_observer_list_events (st : Full.State) (event : Event) :
  dom (Full._observer_lists (Full.Observable._get_observer_list st event).1)
  = dom (Full._observer_lists st) ∪ {[ event ]}.
Proof.
  unfold Full.Observable._get_observer_list.
  destruct (Full._observer_lists st !! event) as [self|] eqn:E; simpl.
  - apply elem_of_dom_2 in E. apply set_eq. intros x.
    rewrite elem_of_union, elem_of_singleton. split; [tauto|].
    intros [?| ->]; done.
  - rewrite dom_insert_L. apply union_comm_L.
Qed.

Lemma iterate_keeps_events (behaviour : Full.Behaviour)
    (self : positive) (args : gmap string PyVal) :
  (∀ c kw w, dom (Full._observer_lists (Full.state w))
             ⊆ dom (Full._observer_lists (Full.state (behaviour c kw w).1))) →
  ∀ rest keys pos w,
    dom (Full._observer_lists (Full.state w))
    ⊆ dom (Full._observer_lists
             (Full.state
                (Full.ObserverList.iterate behaviour self args keys rest pos w).1)).
Proof.
  intros Hb. induction rest as [|k rest IH]; intros keys pos w; simpl.
  - by repeat case_match.
  - destruct (negb (bool_decide _)); [done|].
    destruct (negb (bool_decide _)); [done|].
    destruct (Full.observers_at (Full.state w) self !! pos) as [e|]; [|done].
    case_bool_decide; [|apply IH].
    assert (dom (Full._observer_lists (Full.state w))
            ⊆ dom (Full._observer_lists
                     (Full.state (Full.ObserverList.visit behaviour args w e.2).1)))
      as Hv.
    { unfold Full.ObserverList.visit.
      destruct (merge_kwargs args (ObserverList.kwargs e.2)) as [kw|x]; [|done].
      destruct (WeakMethod_call _ (ObserverList.callback e.2)) as [c|]; [|done].
      specialize (Hb c kw w). by destruct (behaviour c kw w). }
    destruct (Full.ObserverList.visit behaviour args w e.2)
      as [w' [calls [[]|x]]]; simpl in *; [|done].
    specialize (IH keys (S pos) w').
    destruct (Full.ObserverList.iterate behaviour self args keys rest (S pos) w')
      as [w'' [calls' o]].
    simpl in *. by etrans.
Qed.

(** X2.  An observable does not forget an event.  After [add_observer]
    or [remove_observer] for an event, returned or raised, it knows
    exactly the events it knew and that one; after [notify], with
    callbacks that make it forget none, it knows at least those. *)
Theorem events_are_never_forgotten_full
    (T : Full.Traits) (h : Heap) (st : Full.State) (event : Event) :
  (∀ cb kw,
     dom (Full._observer_lists (Full.Observable.add_observer T h st event cb kw).1)
     = dom (Full._observer_lists st) ∪ {[ event ]})
  ∧ (∀ id,
       dom (Full._observer_lists (Full.Observable.remove_observer T h st event id).1)
       = dom (Full._observer_lists st) ∪ {[ event ]})
  ∧ (∀ (behaviour : Full.Behaviour) args,
       (∀ c kw w, dom (Full._observer_lists (Full.state w))
                  ⊆ dom (Full._observer_lists (Full.state (behaviour c kw w).1))) →
       dom (Full._observer_lists st) ∪ {[ event ]}
       ⊆ dom (Full._observer_lists
                (Full.state
                   (Full.Observable.notify behaviour
                      {| Full.alive := h; Full.state := st |} event args).1))).
Proof.
  pose proof (get_observer_list_events st event) as Hget.
  split_and!.
  - intros cb kw. unfold Full.Observable.add_observer.
    destruct (Full.Observable._get_observer_list st event) as [st0 self].
    simpl in *. by rewrite (proj1 (list_methods_keep_events T h st0 self)).
  - intros id. unfold Full.Observable.remove_observer.
    destruct (Full.Observable._get_observer_list st event) as [st0 self].
    simpl in *. by rewrite (proj2 (list_methods_keep_events T h st0 self)).
  - intros behaviour args Hb. unfold Full.Observable.notify. simpl.
    destruct (Full.Observable._get_observer_list st event) as [st0 self].
    simpl in *. rewrite <- Hget. unfold Full.ObserverList.notify.
    by apply (iterate_keeps_events behaviour self args Hb _ _ _
                {| Full.alive := h; Full.state := st0 |}).
Qed.

(** ** What a notification delivers *)

(** X4.  With callbacks that leave the set of live objects and the
    event's list as they are, every call [Observable.notify] makes is the delivery
    of a registration of that event whose key is alive: the callee is
    the bound method of its weak method, whose owner and function are
    alive, the registration's keywords do not clash with the event's,
    and the call carries the two merged. *)
Theorem notify_calls_only_live_registrations_full
    (behaviour : Full.Behaviour) (w : Full.World) (event : Event)
    (args : gmap string PyVal) (c : Call) :
  (∀ self, Full._observer_lists (Full.state w) !! event = Some self →
           quiet_at behaviour self) →
  c ∈ (Full.Observable.notify behaviour w event args).2.1 →
  ∃ e, e ∈ Full.registrations (Full.state w) event
       ∧ e.1 ∈ Full.alive w
       ∧ wm_obj (ObserverList.callback e.2) ∈ Full.alive w
       ∧ wm_func (ObserverList.callback e.2) ∈ Full.alive w
       ∧ args ##ₘ ObserverList.kwargs e.2
       ∧ c = delivery args e.2.
Proof.
  intros Hq.
  destruct (Full._observer_lists (Full.state w) !! event) as [self|] eqn:E.
  - rewrite (observable_notify_quiet _ _ _ _ _ E (Hq _ eq_refl)).
    pose proof (walk_calls behaviour args
                  (Full.registrations (Full.state w) event) w c) as H.
    destruct (walk behaviour args (Full.registrations (Full.state w) event) w)
      as [w' [calls r]].
    simpl in *. apply H. intros c' kw w0. by destruct (Hq _ eq_refl c' kw w0).
  - unfold Full.Observable.notify. rewrite (get_observer_list_unseen _ _ E).
    rewrite notify_all_dead.
    + by intros ?%elem_of_nil.
    + unfold Full.observers_at. simpl. rewrite lookup_insert_eq. apply Forall_nil_2.
Qed.

(** The one call of the worked run is the delivery of the registration
    of [handler.on_tick]. *)
Lemma notify_calls_only_live_registrations_full_witness :
  let args : gmap string PyVal := {[ "count" := PyInt 5 ]} in
  let c := {| callee := BoundMethod Scenario.handler Scenario.on_tick;
              call_kwargs := args ∪ {[ "phase" := PyInt 1 ]} |} in
  ∃ e, e ∈ Full.registrations FullScenario.ticking "tick"
       ∧ e.1 ∈ FullScenario.everything
       ∧ wm_obj (ObserverList.callback e.2) ∈ FullScenario.everything
       ∧ wm_func (ObserverList.callback e.2) ∈ FullScenario.everything
       ∧ args ##ₘ ObserverList.kwargs e.2
       ∧ c = delivery args e.2.
Proof.
  intros args c.
  apply (notify_calls_only_live_registrations_full FullScenario.quiet
           {| Full.alive := FullScenario.everything;
              Full.state := FullScenario.ticking |} "tick" args c).
  - intros self _ c' kw w. split; reflexivity.
  - vm_compute. apply list_elem_of_here.
Defined.

(** After a notification of "tock" the observable on which
    [handler.on_tick] observes "tick" knows both events. *)
Lemma events_are_never_forgotten_full_witness :
  dom (Full._observer_lists FullScenario.ticking) ∪ {[ "tock" ]}
  ⊆ dom (Full._observer_lists
           (Full.state
              (Full.Observable.notify FullScenario.quiet
                 {| Full.alive := FullScenario.everything;
                    Full.state := FullScenario.ticking |} "tock" ∅).1)).
Proof.
  apply (events_are_never_forgotten_full FullScenario.traits
           FullScenario.everything FullScenario.ticking "tock").
  intros c kw w. reflexivity.
Defined.






